(** * TripFare: the feature derivation of [app.py]

    [app.py] is a Streamlit script.  On every interaction it is executed
    from top to bottom: the widgets return the current inputs, lines
    167-179 derive the 24-hour pickup hour, the fractional pickup time and
    the night flag, and, when the button was pressed, lines 195-206 check
    that the model is fitted, build the 1x5 [input_data] array and call
    [model.predict].

    Python integers are modelled as [Z], Python floats (IEEE binary64) as
    Rocq's primitive [float], exceptions as values of [exn] threaded by an
    error monad, and the calls on the model object as events of a trace. *)

From Stdlib Require Import Ascii.
From Stdlib Require DecimalString DecimalZ DecimalPos.
From Stdlib Require Import ZArith String List Bool Lia QArith Qabs Qround.
From Stdlib Require Import Qpower Lqa.
From Stdlib Require Import PrimFloat SpecFloat FloatOps.
From ExtLib Require Import Structures.Monad Structures.MonadExc.
From ExtLib Require Import Data.Monads.EitherMonad.
Import ListNotations MonadNotation.

Open Scope monad_scope.
Open Scope Z_scope.

(** ** A fragment of the Python runtime *)

Module Py.

(** The exceptions that the statements of the script can raise.
    [Raised cls] is an exception of any other class [cls]: what comes out
    of the predictor, which the script neither catches nor inspects, or
    a class that no statement of the script raises. *)
Inductive exn : Type :=
| OverflowError
| ZeroDivisionError
| IndexError
| NotFittedError
| Raised (cls : string).

(** A computation that returns a value ([inr]) or raises ([inl]). *)
Definition result : Type -> Type := sum exn.

Definition succeeds {A} (c : result A) : Prop := exists a, c = inr a.
Definition fails {A} (c : result A) : Prop := exists e, c = inl e.

(** Values that appear in the list literal handed to [np.array]. *)
Inductive pyval : Type :=
| PyInt (z : Z)
| PyFloat (f : float).

(** [int(b)] for a [bool]. *)
Definition int_of_bool (b : bool) : Z := if b then 1 else 0.

(** The integer [z] rounded to the nearest binary64 value, ties to
    even; an infinity when the rounded magnitude exceeds the largest
    finite double. *)
Definition float_of_Z (z : Z) : float :=
  SF2Prim (binary_normalize prec emax z 0 false).

(** The least magnitude that rounds to an infinity: half an ulp above
    the largest finite double [2^1024 - 2^971]. *)
Definition overflow_threshold : Z := 2 ^ 1024 - 2 ^ 970.

(** [float(z)], as [PyLong_AsDouble] computes it: correctly rounded,
    [OverflowError] ("int too large to convert to float") when the
    rounded value is not finite. *)
Definition py_float (z : Z) : result float :=
  if Z.abs z <? overflow_threshold then ret (float_of_Z z)
  else raise OverflowError.

(** The quotient [na / nb] of two positive integers rounded to the
    nearest binary64 value: the numerator is scaled so that the integer
    quotient has at least 55 bits, and a sticky bit records a non-zero
    remainder. *)
Definition rounded_quotient (negate : bool) (na nb : Z) : float :=
  let shift := Z.max 0 (Z.log2 nb - Z.log2 na + 55) in
  let q := (na * 2 ^ shift) / nb in
  let sticky := if (na * 2 ^ shift) mod nb =? 0 then 0 else 1 in
  let m := 2 * q + sticky in
  SF2Prim (binary_normalize prec emax (if negate then - m else m)
                            (- (shift + 1)) negate).

(** [a / b] on two [int]s, as [long_true_divide] computes it. *)
Definition int_truediv (a b : Z) : result float :=
  if b =? 0 then raise ZeroDivisionError
  else
    let negate := xorb (a <? 0) (b <? 0) in
    if a =? 0 then ret (if negate then neg_zero else zero)
    else if Z.abs a <? overflow_threshold * Z.abs b
         then ret (rounded_quotient negate (Z.abs a) (Z.abs b))
         else raise OverflowError.

(** [a + x] for an [int] [a] and a [float] [x]: the integer is converted
    first; the float addition itself never raises. *)
Definition int_add_float (a : Z) (x : float) : result float :=
  fa <- py_float a ;; ret (fa + x)%float.

(** Conversion of one element by [np.array(..., dtype=float)]. *)
Definition as_float64 (v : pyval) : result float :=
  match v with
  | PyInt z => py_float z
  | PyFloat f => ret f
  end.

Fixpoint as_float64_row (row : list pyval) : result (list float) :=
  match row with
  | [] => ret []
  | v :: vs =>
      f <- as_float64 v ;;
      fs <- as_float64_row vs ;;
      ret (f :: fs)
  end.

(** [np.array(rows, dtype=float)] on a list of rows. *)
Fixpoint np_array (rows : list (list pyval)) : result (list (list float)) :=
  match rows with
  | [] => ret []
  | r :: rs =>
      fr <- as_float64_row r ;;
      frs <- np_array rs ;;
      ret (fr :: frs)
  end.

(** The exact rational value of a finite float. *)
Definition F2Q (f : float) : option Q :=
  match Prim2SF f with
  | S754_zero _ => Some 0%Q
  | S754_finite s m e =>
      let v := (inject_Z (Zpos m) * Qpower 2 e)%Q in
      Some (if s then Qopp v else v)
  | _ => None
  end.

End Py.

Export Py.

(** ** The inputs of one run of the script *)

(** The values returned by the widgets of lines 102-160 and 189. *)
Record Inputs : Type := {
  passenger_count : Z;
  trip_distance : float;
  trip_duration : Z;
  pickup_hour_12 : Z;
  pickup_minute : Z;
  am_pm : string;
  predict_clicked : bool
}.

Fixpoint Zrange (lo : Z) (n : nat) : list Z :=
  match n with
  | O => []
  | S k => lo :: Zrange (lo + 1) k
  end.

(** The values the widgets offer: the declared domain of a request. *)
Definition passenger_count_options : list Z := [1; 2; 3; 4; 5; 6].
Definition pickup_hour_12_options : list Z := Zrange 1 12.
Definition am_pm_options : list string := ["AM"%string; "PM"%string].

(** A slider with [min_value], [max_value] and [step] returns a value
    [min_value + k * step] that does not exceed [max_value]. *)
Definition trip_distance_values : list float :=
  map (fun k => (0.5 + float_of_Z k * 0.5)%float) (Zrange 0 100).

Definition in_passenger_count (n : Z) : bool :=
  existsb (Z.eqb n) passenger_count_options.
Definition in_trip_distance (d : float) : bool :=
  existsb (PrimFloat.eqb d) trip_distance_values.
Definition in_trip_duration (n : Z) : bool := (2 <=? n) && (n <=? 120).
Definition in_pickup_hour_12 (n : Z) : bool :=
  existsb (Z.eqb n) pickup_hour_12_options.
Definition in_pickup_minute (n : Z) : bool := (0 <=? n) && (n <=? 59).
Definition in_am_pm (s : string) : bool :=
  existsb (String.eqb s) am_pm_options.

Definition in_declared_ranges (r : Inputs) : bool :=
  in_passenger_count (passenger_count r)
  && in_trip_distance (trip_distance r)
  && in_trip_duration (trip_duration r)
  && in_pickup_hour_12 (pickup_hour_12 r)
  && in_pickup_minute (pickup_minute r).

Definition in_declared_domain (r : Inputs) : bool :=
  in_declared_ranges r && in_am_pm (am_pm r).

(** ** Time conversion logic (lines 167-179) *)

(** Lines 167-170. *)
Definition pickup_hour_24 (am_pm : string) (pickup_hour_12 : Z) : Z :=
  if String.eqb am_pm "AM"
  then (if pickup_hour_12 =? 12 then 0 else pickup_hour_12)
  else (if pickup_hour_12 =? 12 then 12 else pickup_hour_12 + 12).

(** Line 173: [pickup_hour_24 + (pickup_minute / 60)]. *)
Definition pickup_time (pickup_hour_24 pickup_minute : Z) : result float :=
  frac <- int_truediv pickup_minute 60 ;;
  int_add_float pickup_hour_24 frac.

(** Lines 176-179. *)
Definition is_night (pickup_hour_24 : Z) : bool :=
  (22 <=? pickup_hour_24) || (pickup_hour_24 <=? 5).

(** Lines 199-203. *)
Definition input_data (trip_distance : float) (trip_duration : Z)
    (pickup_time : float) (is_night : bool) (passenger_count : Z)
  : result (list (list float)) :=
  np_array [[PyFloat trip_distance; PyInt trip_duration; PyFloat pickup_time;
             PyInt (int_of_bool is_night); PyInt passenger_count]].

(** The feature derivation of one request: lines 167-179 followed by
    lines 199-203. *)
Definition derive_features (r : Inputs) : result (list (list float)) :=
  let h := pickup_hour_24 (am_pm r) (pickup_hour_12 r) in
  t <- pickup_time h (pickup_minute r) ;;
  input_data (trip_distance r) (trip_duration r) t (is_night h)
             (passenger_count r).

(** The integers of a request are small enough for the conversions to
    float of lines 173 and 199-203. *)
Definition in_float_range (r : Inputs) : Prop :=
  Z.abs (pickup_hour_24 (am_pm r) (pickup_hour_12 r)) < overflow_threshold /\
  Z.abs (pickup_minute r) < overflow_threshold * 60 /\
  Z.abs (trip_duration r) < overflow_threshold /\
  Z.abs (passenger_count r) < overflow_threshold.

(** The inverse of the conversion: the hour of the 12-hour clock and the
    meridiem that are mapped to the hour [k] of the 24-hour clock. *)
Definition hour_12_of (k : Z) : Z :=
  if k mod 12 =? 0 then 12 else k mod 12.

Definition meridiem_of (k : Z) : string :=
  if k <? 12 then "AM"%string else "PM"%string.

(** ** The predictor boundary and the script (lines 195-206) *)

(** The model object loaded at line 24, as far as the script uses it:
    what [check_is_fitted] finds, and the [predict] method. *)
Record Model : Type := {
  is_fitted : bool;
  predict : list (list float) -> result (list float)
}.

(** The calls made on the model object, in the order they happen. *)
Inductive event : Type :=
| CheckIsFitted
| Predict (X : list (list float)).

(** A statement of the script: it extends the trace of calls, and returns
    or raises.  The trace survives an exception. *)
Definition script (A : Type) : Type := list event -> list event * result A.

#[export] Instance Monad_script : Monad script := {
  ret := fun _ a tr => (tr, inr a);
  bind := fun _ _ c k tr =>
    match c tr with
    | (tr', inl e) => (tr', inl e)
    | (tr', inr a) => k a tr'
    end
}.

Definition lift {A} (c : result A) : script A := fun tr => (tr, c).
Definition emit (ev : event) : script unit := fun tr => (tr ++ [ev], inr tt).

(** [check_is_fitted(model)]: raises [NotFittedError] on a model that is
    not fitted, returns [None] otherwise. *)
Definition check_is_fitted (model : Model) : script unit :=
  emit CheckIsFitted ;;
  if is_fitted model then ret tt else lift (raise NotFittedError).

(** [model.predict(X)]. *)
Definition model_predict (model : Model) (X : list (list float))
  : script (list float) :=
  emit (Predict X) ;;
  lift (predict model X).

(** [ys[0]]. *)
Definition getitem0 (ys : list float) : result float :=
  match ys with
  | [] => raise IndexError
  | y :: _ => ret y
  end.

(** One run of the script on the inputs [r]: the derivations of lines
    167-179 always run; the body of [if predict_clicked:] runs when the
    button was pressed and yields the predicted fare. *)
Definition app (model : Model) (r : Inputs) : script (option float) :=
  let h := pickup_hour_24 (am_pm r) (pickup_hour_12 r) in
  t <- lift (pickup_time h (pickup_minute r)) ;;
  let night := is_night h in
  if predict_clicked r then
    check_is_fitted model ;;
    X <- lift (input_data (trip_distance r) (trip_duration r) t night
                          (passenger_count r)) ;;
    ys <- model_predict model X ;;
    predicted_fare <- lift (getitem0 ys) ;;
    ret (Some predicted_fare)
  else ret None.

Definition run_app (model : Model) (r : Inputs)
  : list event * result (option float) :=
  app model r [].

(** Every call of [predict] in the trace comes after a readiness check. *)
Definition checked_before_predict (tr : list event) : Prop :=
  forall pre X post, tr = pre ++ Predict X :: post -> In CheckIsFitted pre.

(** No call of [predict] was made. *)
Definition no_predict (tr : list event) : Prop :=
  forall X, ~ In (Predict X) tr.

(** The integers that line 173 converts to float are small enough. *)
Definition line_173_in_range (r : Inputs) : Prop :=
  Z.abs (pickup_hour_24 (am_pm r) (pickup_hour_12 r)) < overflow_threshold /\
  Z.abs (pickup_minute r) < overflow_threshold * 60.

(** The value of [model.predict(input_data)[0]] for the outcome [out] of
    the call. *)
Definition first_prediction (out : result (list float))
  : result (option float) :=
  match out with
  | inl e => inl e
  | inr [] => inl IndexError
  | inr (y :: _) => inr (Some y)
  end.

(** A model that is not fitted, and a fitted model whose [predict] raises
    an exception of class [cls]. *)
Definition unfitted_model : Model :=
  {| is_fitted := false; predict := fun _ => inr [] |}.

Definition failing_model (cls : string) : Model :=
  {| is_fitted := true; predict := fun _ => inl (Raised cls) |}.

(** ** What the page displays (lines 182-183 and 213-214) *)

(** Line 182. *)
Definition night_label (is_night : bool) : string :=
  if is_night then "🌙 Night / Early Morning Ride" else "☀️ Daytime Ride".

(** Line 183: the text handed to [st.caption]. *)
Definition caption (night_label : string) : string :=
  "Detected Ride Time: **" ++ night_label ++ "**".

(** [str(z)] for an [int]: an optional minus sign and the decimal digits. *)
Definition py_str_int (z : Z) : string :=
  DecimalString.NilZero.string_of_int (Z.to_int z).

(** The replacement field [{z:02d}]: zeros are inserted after the sign up
    to a width of two characters, so that only a single digit is padded. *)
Definition format_02d (z : Z) : string :=
  if z <? 0 then py_str_int z
  else if z <? 10 then "0" ++ py_str_int z
  else py_str_int z.

(** Line 214: [{pickup_hour_12:02d}:{pickup_minute:02d} {am_pm}]. *)
Definition pickup_display (pickup_hour_12 pickup_minute : Z) (am_pm : string)
  : string :=
  format_02d pickup_hour_12 ++ ":" ++ format_02d pickup_minute ++ " " ++ am_pm.

(** The integer nearest to [q], the even one of the two when [q] is half
    way between them. *)
Definition round_half_even (q : Q) : Z :=
  let f := Qfloor q in
  match Qcompare (q - inject_Z f) (1 # 2) with
  | Lt => f
  | Gt => f + 1
  | Eq => if Z.even f then f else f + 1
  end.

(** The magnitude of a finite float in hundredths, rounded to nearest. *)
Definition cents_of (m : positive) (e : Z) : Z :=
  round_half_even (inject_Z (Zpos m) * Qpower 2 e * 100).

(** The replacement field [{x:.2f}] on a float: the exact value of [x]
    rounded to two decimals, the sign of [x] kept even when the digits are
    all zero. *)
Definition format_2f (x : float) : string :=
  match Prim2SF x with
  | S754_nan => "nan"
  | S754_infinity s => if s then "-inf" else "inf"
  | S754_zero s => (if s then "-" else "") ++ "0.00"
  | S754_finite s m e =>
      (if s then "-" else "")
      ++ py_str_int (cents_of m e / 100) ++ "."
      ++ format_02d (cents_of m e mod 100)
  end.

(** Line 210: the text of the fare. *)
Definition fare_value (predicted_fare : float) : string :=
  "$" ++ format_2f predicted_fare.

(** Reading a displayed integer back. *)
Definition parse_int (s : string) : option Z :=
  option_map Z.of_int (DecimalString.NilZero.int_of_string s).

(** The characters of [s] are all different from [c]. *)
Fixpoint lacks (c : ascii) (s : string) : Prop :=
  match s with
  | EmptyString => True
  | String a s' => a <> c /\ lacks c s'
  end.

(** A separator of the display is neither a digit nor the sign. *)
Definition separator (c : ascii) : Prop := c = ":"%char \/ c = " "%char.

(** ** Decidable checks on the feature values *)

(** The pickup times of a day, minute by minute from 00:00 to 23:59. *)
Definition pickup_times : list (Z * result float) :=
  map (fun k => (k, pickup_time (k / 60) (k mod 60))) (Zrange 0 1440).

(** The floats of two minutes of the day compare as the minutes do. *)
Definition same_order (p1 p2 : Z * result float) : bool :=
  match snd p1, snd p2 with
  | inr t1, inr t2 =>
      Bool.eqb (t1 <? t2)%float (fst p1 <? fst p2)
      && Bool.eqb (t1 =? t2)%float (fst p1 =? fst p2)
  | _, _ => false
  end.

Definition time_order_check : bool :=
  let ts := pickup_times in
  forallb (fun p1 => forallb (same_order p1) ts) ts.

(** [f] is a finite float whose exact value lies in [[lo, hi]]. *)
Definition finite_in (lo hi : Q) (f : float) : bool :=
  match F2Q f with
  | Some q => Qle_bool lo q && Qle_bool q hi
  | None => false
  end.

Definition pickup_time_finite_check (h m : Z) : bool :=
  match pickup_time h m with
  | inr t => finite_in 0 24 t
  | inl _ => false
  end.

(** ** The statements in their order (lines 167-179 and 214) *)

(** Lines 167-179 in the order of the statements: the hour of the 24-hour
    clock is assigned first, the night flag only after line 173 has
    returned; an exception of line 173 leaves it unassigned.  The value is
    [(pickup_hour_24, pickup_time, is_night)]. *)
Definition time_conversion (r : Inputs) : result (Z * float * bool) :=
  let h := pickup_hour_24 (am_pm r) (pickup_hour_12 r) in
  t <- pickup_time h (pickup_minute r) ;;
  ret (h, t, is_night h).

(** The default of [sys.get_int_max_str_digits()] in CPython 3.11: an
    [int] of more decimal digits is not converted to text. *)
Definition int_max_str_digits : Z := 4300.

(** The replacement field [{z:02d}] as the interpreter evaluates it:
    ValueError for an integer of more than [int_max_str_digits] digits,
    the padded digits otherwise. *)
Definition field_02d (z : Z) : result string :=
  if Z.abs z <? 10 ^ int_max_str_digits then ret (format_02d z)
  else raise (Raised "ValueError").

(** Line 214 as the interpreter evaluates it, the fields from left to
    right. *)
Definition pickup_display_field (pickup_hour_12 pickup_minute : Z)
    (am_pm : string) : result string :=
  hh <- field_02d pickup_hour_12 ;;
  mm <- field_02d pickup_minute ;;
  ret (hh ++ ":" ++ mm ++ " " ++ am_pm)%string.

(** ** Sample requests *)

(** End-to-end scenario 2 of the specification. *)
Definition scenario_2 : Inputs := {|
  passenger_count := 6; trip_distance := 0.5; trip_duration := 2;
  pickup_hour_12 := 12; pickup_minute := 0; am_pm := "AM";
  predict_clicked := true |}.

(** The default values of the widgets, at the pickup time [hh:mm s]. *)
Definition request_at (hh mm : Z) (s : string) : Inputs := {|
  passenger_count := 1; trip_distance := 5; trip_duration := 15;
  pickup_hour_12 := hh; pickup_minute := mm; am_pm := s;
  predict_clicked := true |}.

(** ** Decidable checks on the fractional pickup time *)

Definition Qlt_bool (a b : Q) : bool := negb (Qle_bool b a).

(** The real number [h + m/60]. *)
Definition exact_time (h m : Z) : Q := (inject_Z h + inject_Z m / 60)%Q.

(** The pickup time of [h] and [m] is computed without an exception, lies
    between [h] and [h + 1] in the order of the floats, and its exact value
    [q] satisfies [h <= q < h + 1], is within [2^-49] of [h + m/60] and is
    [h + m/60] when [m] is a multiple of 15. *)
Definition fractional_hour_check (h m : Z) : bool :=
  match pickup_time h m with
  | inr t =>
      ((float_of_Z h <=? t)%float && (t <? float_of_Z (h + 1))%float)
      && match F2Q t with
         | Some q =>
             Qle_bool (inject_Z h) q
             && Qlt_bool q (inject_Z h + 1)
             && Qle_bool (Qabs (q - exact_time h m)) (1 # 2 ^ 49)
             && (if m mod 15 =? 0 then Qeq_bool q (exact_time h m) else true)
         | None => false
         end
  | inl _ => false
  end.

(** The conversion of [z] to a float is exact. *)
Definition exact_conversion_check (z : Z) : bool :=
  match F2Q (float_of_Z z) with
  | Some q => Qeq_bool q (inject_Z z)
  | None => false
  end.

(** * Properties *)

(** Closed facts are settled by evaluation, conjunct by conjunct. *)
Ltac evaluate := repeat split; vm_compute; reflexivity.

(** ** Ranges of integers *)

Lemma Zrange_In (n : nat) : forall lo z,
  lo <= z < lo + Z.of_nat n -> In z (Zrange lo n).
Proof.
  induction n as [|n IH]; intros lo z Hz.
  - simpl in Hz. lia.
  - simpl. destruct (Z.eq_dec lo z) as [->|Hne]; [now left|right].
    apply IH. lia.
Qed.

Lemma In_Zrange (n : nat) : forall lo z,
  In z (Zrange lo n) -> lo <= z < lo + Z.of_nat n.
Proof.
  induction n as [|n IH]; intros lo z Hin.
  - destruct Hin.
  - destruct Hin as [<-|Hin]; [lia|].
    apply IH in Hin. lia.
Qed.

(** A boolean property checked on every element of a range holds of every
    integer of the range. *)
Lemma forallb_Zrange (P : Z -> bool) (lo : Z) (n : nat) :
  forallb P (Zrange lo n) = true ->
  forall z, lo <= z < lo + Z.of_nat n -> P z = true.
Proof.
  intros Hall z Hz. rewrite forallb_forall in Hall.
  apply Hall, Zrange_In, Hz.
Qed.

Lemma existsb_Zeqb (n : Z) (l : list Z) :
  existsb (Z.eqb n) l = true <-> In n l.
Proof.
  rewrite existsb_exists. split.
  - intros (x & Hx & Heq). apply Z.eqb_eq in Heq. now subst.
  - intros Hin. exists n. split; [assumption|apply Z.eqb_refl].
Qed.

(** ** The declared domain *)

Lemma in_passenger_count_spec (n : Z) :
  in_passenger_count n = true <-> 1 <= n <= 6.
Proof.
  unfold in_passenger_count. rewrite existsb_Zeqb.
  change passenger_count_options with (Zrange 1 6). split.
  - intros H. apply In_Zrange in H. lia.
  - intros H. apply Zrange_In. lia.
Qed.

Lemma in_pickup_hour_12_spec (n : Z) :
  in_pickup_hour_12 n = true <-> 1 <= n <= 12.
Proof.
  unfold in_pickup_hour_12, pickup_hour_12_options. rewrite existsb_Zeqb. split.
  - intros H. apply In_Zrange in H. lia.
  - intros H. apply Zrange_In. lia.
Qed.

Lemma in_trip_duration_spec (n : Z) :
  in_trip_duration n = true <-> 2 <= n <= 120.
Proof. unfold in_trip_duration. lia. Qed.

Lemma in_pickup_minute_spec (n : Z) :
  in_pickup_minute n = true <-> 0 <= n <= 59.
Proof. unfold in_pickup_minute. lia. Qed.

Lemma in_am_pm_spec (s : string) :
  in_am_pm s = true <-> s = "AM"%string \/ s = "PM"%string.
Proof.
  unfold in_am_pm, am_pm_options. simpl. rewrite orb_false_r, orb_true_iff.
  now rewrite !String.eqb_eq.
Qed.

(** ** The 12-hour to 24-hour conversion *)

Lemma pickup_hour_24_AM (h : Z) :
  pickup_hour_24 "AM" h = if h =? 12 then 0 else h.
Proof. reflexivity. Qed.

Lemma pickup_hour_24_PM (h : Z) :
  pickup_hour_24 "PM" h = if h =? 12 then 12 else h + 12.
Proof. reflexivity. Qed.

Lemma pickup_hour_24_AM_range (h : Z) :
  1 <= h <= 12 -> 0 <= pickup_hour_24 "AM" h <= 11.
Proof.
  intros Hh. rewrite pickup_hour_24_AM. destruct (Z.eqb_spec h 12); lia.
Qed.

Lemma pickup_hour_24_PM_range (h : Z) :
  1 <= h <= 12 -> 12 <= pickup_hour_24 "PM" h <= 23.
Proof.
  intros Hh. rewrite pickup_hour_24_PM. destruct (Z.eqb_spec h 12); lia.
Qed.

(** Any string other than ["AM"] takes the [else] branch. *)
Lemma pickup_hour_24_range (s : string) (h : Z) :
  1 <= h <= 12 -> 0 <= pickup_hour_24 s h <= 23.
Proof.
  intros Hh. unfold pickup_hour_24.
  destruct (String.eqb s "AM"), (Z.eqb_spec h 12); lia.
Qed.

(** Without a range check the conversion moves [h] by at most 12. *)
Lemma pickup_hour_24_bound (s : string) (h : Z) :
  Z.abs (pickup_hour_24 s h) <= Z.abs h + 12.
Proof.
  unfold pickup_hour_24.
  destruct (String.eqb s "AM"), (Z.eqb_spec h 12); lia.
Qed.

Lemma pickup_hour_24_inverse (k : Z) :
  0 <= k <= 23 ->
  1 <= hour_12_of k <= 12 /\
  pickup_hour_24 (meridiem_of k) (hour_12_of k) = k.
Proof.
  intros Hk. unfold hour_12_of, meridiem_of.
  destruct (Z.ltb_spec k 12) as [Hlt|Hge].
  - rewrite (Z.mod_small k 12) by lia. rewrite pickup_hour_24_AM.
    destruct (Z.eqb_spec k 0) as [->|Hne]; simpl; [lia|].
    destruct (Z.eqb_spec k 12); lia.
  - replace (k mod 12) with (k - 12).
    2:{ apply (Z.mod_unique k 12 1); lia. }
    rewrite pickup_hour_24_PM.
    destruct (Z.eqb_spec (k - 12) 0) as [He|Hne]; simpl; [lia|].
    destruct (Z.eqb_spec (k - 12) 12); lia.
Qed.

(** C2: for every hour12 in [1,12] and meridiem in {AM, PM}, the 24-hour
    conversion returns 0 for 12 AM, hour12 for the other AM hours, 12 for
    12 PM and hour12 + 12 for the other PM hours.  The conversion is a total
    function on this domain (it has no error case) and its value is an hour
    of the 24-hour clock. *)
Theorem to24Hour_rule (hour12 : Z) (meridiem : string) :
  1 <= hour12 <= 12 ->
  In meridiem am_pm_options ->
  (meridiem = "AM"%string -> hour12 = 12 ->
   pickup_hour_24 meridiem hour12 = 0) /\
  (meridiem = "AM"%string -> hour12 <> 12 ->
   pickup_hour_24 meridiem hour12 = hour12) /\
  (meridiem = "PM"%string -> hour12 = 12 ->
   pickup_hour_24 meridiem hour12 = 12) /\
  (meridiem = "PM"%string -> hour12 <> 12 ->
   pickup_hour_24 meridiem hour12 = hour12 + 12) /\
  0 <= pickup_hour_24 meridiem hour12 <= 23.
Proof.
  intros Hh Hm.
  repeat split; try (intros -> Hcase; first [rewrite pickup_hour_24_AM
                                            |rewrite pickup_hour_24_PM];
                     destruct (Z.eqb_spec hour12 12); lia).
  - apply (pickup_hour_24_range meridiem hour12 Hh).
  - apply (pickup_hour_24_range meridiem hour12 Hh).
Qed.

Lemma to24Hour_rule_witness :
  pickup_hour_24 "PM" 7 = 7 + 12 /\ 0 <= pickup_hour_24 "PM" 7 <= 23.
Proof.
  destruct (to24Hour_rule 7 "PM") as (_ & _ & _ & Hpm & Hrange).
  - lia.
  - simpl. right. left. reflexivity.
  - split; [apply Hpm; [reflexivity|lia]|exact Hrange].
Defined.

(** C3: for every hour24 in [0,23] the night flag is true exactly when
    hour24 >= 22 or hour24 <= 5; at the boundaries, 5, 22, 0 and 23 are
    night and 6 and 21 are not. *)
Theorem classifyNight_rule :
  (forall hour24 : Z, 0 <= hour24 <= 23 ->
     (is_night hour24 = true <-> hour24 >= 22 \/ hour24 <= 5)) /\
  is_night 5 = true /\ is_night 6 = false /\
  is_night 21 = false /\ is_night 22 = true /\
  is_night 0 = true /\ is_night 23 = true.
Proof.
  split; [|repeat split; reflexivity].
  intros hour24 _. unfold is_night. rewrite orb_true_iff. lia.
Qed.

(** C6: the conversion is a bijection from [1,12] x {AM, PM} onto [0,23]:
    its values lie in [0,23], two distinct inputs have distinct values,
    every hour of [0,23] is a value, 12 AM is 0 and 12 PM is 12, the values
    at AM are exactly 0..11 and the values at PM exactly 12..23. *)
Theorem to24Hour_bijection :
  (forall h s, 1 <= h <= 12 -> In s am_pm_options ->
     0 <= pickup_hour_24 s h <= 23) /\
  (forall h1 s1 h2 s2,
     1 <= h1 <= 12 -> In s1 am_pm_options ->
     1 <= h2 <= 12 -> In s2 am_pm_options ->
     pickup_hour_24 s1 h1 = pickup_hour_24 s2 h2 -> h1 = h2 /\ s1 = s2) /\
  (forall k, 0 <= k <= 23 ->
     exists h s, 1 <= h <= 12 /\ In s am_pm_options /\
                 pickup_hour_24 s h = k) /\
  pickup_hour_24 "AM" 12 = 0 /\
  pickup_hour_24 "PM" 12 = 12 /\
  (forall k, (exists h, 1 <= h <= 12 /\ pickup_hour_24 "AM" h = k) <->
             0 <= k <= 11) /\
  (forall k, (exists h, 1 <= h <= 12 /\ pickup_hour_24 "PM" h = k) <->
             12 <= k <= 23).
Proof.
  assert (Hopt : forall s, In s am_pm_options ->
                           s = "AM"%string \/ s = "PM"%string).
  { intros s Hs. simpl in Hs. intuition congruence. }
  split; [|split; [|split; [|split; [|split; [|split]]]]].
  - intros h s Hh _. apply pickup_hour_24_range, Hh.
  - intros h1 s1 h2 s2 Hh1 Hs1 Hh2 Hs2 Heq.
    destruct (Hopt s1 Hs1) as [-> | ->], (Hopt s2 Hs2) as [-> | ->];
      pose proof (pickup_hour_24_AM_range h1 Hh1);
      pose proof (pickup_hour_24_PM_range h1 Hh1);
      pose proof (pickup_hour_24_AM_range h2 Hh2);
      pose proof (pickup_hour_24_PM_range h2 Hh2);
      try lia;
      rewrite ?pickup_hour_24_AM, ?pickup_hour_24_PM in Heq;
      destruct (Z.eqb_spec h1 12), (Z.eqb_spec h2 12);
      split; (reflexivity || lia).
  - intros k Hk. destruct (pickup_hour_24_inverse k Hk) as [Hh Hv].
    exists (hour_12_of k), (meridiem_of k). repeat split; try assumption; try lia.
    unfold meridiem_of. destruct (k <? 12); simpl; auto.
  - reflexivity.
  - reflexivity.
  - intros k. split.
    + intros (h & Hh & <-). apply pickup_hour_24_AM_range, Hh.
    + intros Hk. destruct (pickup_hour_24_inverse k) as [Hh Hv]; [lia|].
      exists (hour_12_of k). split; [assumption|].
      unfold meridiem_of in Hv. destruct (Z.ltb_spec k 12); [assumption|lia].
  - intros k. split.
    + intros (h & Hh & <-). apply pickup_hour_24_PM_range, Hh.
    + intros Hk. destruct (pickup_hour_24_inverse k) as [Hh Hv]; [lia|].
      exists (hour_12_of k). split; [assumption|].
      unfold meridiem_of in Hv. destruct (Z.ltb_spec k 12); [lia|assumption].
Qed.

(** ** The error monad *)

Lemma bind_inr {A B} (a : A) (k : A -> result B) :
  bind (inr a : result A) k = k a.
Proof. reflexivity. Qed.

Lemma succeeds_not_fails {A} (c : result A) : succeeds c -> ~ fails c.
Proof. intros [a ->] [e He]. discriminate. Qed.

(** ** Conversions of integers to floats *)

Lemma py_float_in_range (z : Z) :
  Z.abs z < overflow_threshold -> py_float z = inr (float_of_Z z).
Proof.
  intros Hz. unfold py_float.
  destruct (Z.ltb_spec (Z.abs z) overflow_threshold); [reflexivity|lia].
Qed.

Lemma py_float_out_of_range (z : Z) :
  overflow_threshold <= Z.abs z -> py_float z = inl OverflowError.
Proof.
  intros Hz. unfold py_float.
  destruct (Z.ltb_spec (Z.abs z) overflow_threshold); [lia|reflexivity].
Qed.

(** The threshold is the first integer that rounds to an infinity. *)
Lemma overflow_threshold_sharp :
  float_of_Z (overflow_threshold - 1) = 0x1.fffffffffffffp+1023%float /\
  float_of_Z overflow_threshold = infinity /\
  float_of_Z (- overflow_threshold) = neg_infinity.
Proof. evaluate. Qed.

(** The same threshold bounds the quotients that [int_truediv] returns. *)
Lemma int_truediv_threshold_sharp :
  int_truediv (overflow_threshold * 60 - 1) 60
    = inr 0x1.fffffffffffffp+1023%float /\
  rounded_quotient false (overflow_threshold * 60) 60 = infinity /\
  int_truediv (overflow_threshold * 60) 60 = inl OverflowError.
Proof. evaluate. Qed.

(** Signs and zeros of the quotient. *)
Example int_truediv_signs :
  int_truediv 0 (-5) = inr neg_zero /\
  int_truediv 0 60 = inr zero /\
  int_truediv 1 (-3) = inr (1 / -3)%float /\
  int_truediv 7 0 = inl ZeroDivisionError.
Proof. evaluate. Qed.

Lemma overflow_threshold_large : 2 ^ 53 < overflow_threshold.
Proof. vm_compute. reflexivity. Qed.

Lemma int_truediv_60_in_range (m : Z) :
  Z.abs m < overflow_threshold * 60 ->
  exists frac, int_truediv m 60 = inr frac.
Proof.
  intros Hm. unfold int_truediv.
  change (60 =? 0) with false. change (Z.abs 60) with 60. cbv iota.
  destruct (m =? 0); [eexists; reflexivity|].
  destruct (Z.ltb_spec (Z.abs m) (overflow_threshold * 60)); [|lia].
  eexists; reflexivity.
Qed.

Lemma int_truediv_60_out_of_range (m : Z) :
  overflow_threshold * 60 <= Z.abs m ->
  int_truediv m 60 = inl OverflowError.
Proof.
  intros Hm. pose proof overflow_threshold_large as Hlarge.
  unfold int_truediv.
  change (60 =? 0) with false. change (Z.abs 60) with 60. cbv iota.
  destruct (Z.eqb_spec m 0) as [->|_]; [simpl in Hm; lia|].
  destruct (Z.ltb_spec (Z.abs m) (overflow_threshold * 60)); [lia|reflexivity].
Qed.

(** ** The fractional pickup time *)

Lemma pickup_time_in_range (h m : Z) :
  Z.abs h < overflow_threshold ->
  Z.abs m < overflow_threshold * 60 ->
  exists frac,
    int_truediv m 60 = inr frac /\
    pickup_time h m = inr (float_of_Z h + frac)%float.
Proof.
  intros Hh Hm. destruct (int_truediv_60_in_range m Hm) as [frac Hfrac].
  exists frac. split; [assumption|].
  unfold pickup_time, int_add_float.
  rewrite Hfrac, bind_inr, (py_float_in_range h Hh), bind_inr. reflexivity.
Qed.

Lemma pickup_time_out_of_range (h m : Z) :
  overflow_threshold <= Z.abs h \/ overflow_threshold * 60 <= Z.abs m ->
  pickup_time h m = inl OverflowError.
Proof.
  intros Hout. unfold pickup_time, int_add_float.
  destruct (Z.le_gt_cases (overflow_threshold * 60) (Z.abs m)) as [Hm|Hm].
  - rewrite (int_truediv_60_out_of_range m Hm). reflexivity.
  - destruct (int_truediv_60_in_range m Hm) as [frac ->].
    rewrite bind_inr, py_float_out_of_range by lia. reflexivity.
Qed.

(** ** The feature array *)

Lemma input_data_in_range (d : float) (dur : Z) (t : float) (night : bool)
    (pc : Z) :
  Z.abs dur < overflow_threshold ->
  Z.abs pc < overflow_threshold ->
  input_data d dur t night pc =
    inr [[d; float_of_Z dur; t; float_of_Z (int_of_bool night); float_of_Z pc]].
Proof.
  intros Hdur Hpc. unfold input_data, np_array, as_float64_row, as_float64.
  assert (Hnight : Z.abs (int_of_bool night) < overflow_threshold).
  { pose proof overflow_threshold_large. destruct night; simpl; lia. }
  rewrite (py_float_in_range dur Hdur), (py_float_in_range _ Hnight),
    (py_float_in_range pc Hpc).
  reflexivity.
Qed.

Lemma input_data_out_of_range (d : float) (dur : Z) (t : float) (night : bool)
    (pc : Z) :
  overflow_threshold <= Z.abs dur \/ overflow_threshold <= Z.abs pc ->
  input_data d dur t night pc = inl OverflowError.
Proof.
  intros Hout. unfold input_data, np_array, as_float64_row, as_float64.
  assert (Hnight : Z.abs (int_of_bool night) < overflow_threshold).
  { pose proof overflow_threshold_large. destruct night; simpl; lia. }
  rewrite (py_float_in_range _ Hnight).
  destruct (Z.le_gt_cases overflow_threshold (Z.abs dur)) as [Hdur|Hdur].
  - rewrite (py_float_out_of_range dur Hdur). reflexivity.
  - rewrite (py_float_in_range dur Hdur), (py_float_out_of_range pc) by lia.
    reflexivity.
Qed.

(** ** The feature derivation *)

Lemma derive_features_in_range (r : Inputs) :
  in_float_range r ->
  exists t,
    pickup_time (pickup_hour_24 (am_pm r) (pickup_hour_12 r))
                (pickup_minute r) = inr t /\
    derive_features r =
      inr [[trip_distance r;
            float_of_Z (trip_duration r);
            t;
            float_of_Z
              (int_of_bool
                 (is_night (pickup_hour_24 (am_pm r) (pickup_hour_12 r))));
            float_of_Z (passenger_count r)]].
Proof.
  intros (Hh & Hm & Hdur & Hpc).
  destruct (pickup_time_in_range _ _ Hh Hm) as (frac & _ & Ht).
  eexists. split; [exact Ht|].
  unfold derive_features. rewrite Ht, bind_inr.
  apply input_data_in_range; assumption.
Qed.

Lemma derive_features_out_of_range (r : Inputs) :
  ~ in_float_range r -> derive_features r = inl OverflowError.
Proof.
  intros Hout. unfold derive_features.
  set (h := pickup_hour_24 (am_pm r) (pickup_hour_12 r)) in *.
  destruct (Z.le_gt_cases overflow_threshold (Z.abs h)) as [Hh|Hh].
  { rewrite pickup_time_out_of_range by (left; exact Hh). reflexivity. }
  destruct (Z.le_gt_cases (overflow_threshold * 60) (Z.abs (pickup_minute r)))
    as [Hm|Hm].
  { rewrite pickup_time_out_of_range by (right; exact Hm). reflexivity. }
  destruct (pickup_time_in_range h _ Hh Hm) as (frac & _ & ->).
  rewrite bind_inr. apply input_data_out_of_range.
  unfold in_float_range in Hout. fold h in Hout. lia.
Qed.

Lemma in_declared_ranges_spec (r : Inputs) :
  in_declared_ranges r = true <->
  1 <= passenger_count r <= 6 /\
  in_trip_distance (trip_distance r) = true /\
  2 <= trip_duration r <= 120 /\
  1 <= pickup_hour_12 r <= 12 /\
  0 <= pickup_minute r <= 59.
Proof.
  unfold in_declared_ranges. rewrite !andb_true_iff.
  rewrite in_passenger_count_spec, in_trip_duration_spec,
    in_pickup_hour_12_spec, in_pickup_minute_spec.
  tauto.
Qed.

Lemma declared_ranges_in_float_range (r : Inputs) :
  in_declared_ranges r = true -> in_float_range r.
Proof.
  rewrite in_declared_ranges_spec.
  intros (Hpc & _ & Hdur & Hh & Hm).
  pose proof (pickup_hour_24_range (am_pm r) _ Hh) as Hh24.
  pose proof overflow_threshold_large as Hlarge.
  assert (H53 : 2 ^ 53 = 9007199254740992) by reflexivity.
  unfold in_float_range. lia.
Qed.

Lemma declared_domain_in_float_range (r : Inputs) :
  in_declared_domain r = true -> in_float_range r.
Proof.
  unfold in_declared_domain. rewrite andb_true_iff.
  intros [Hr _]. apply declared_ranges_in_float_range, Hr.
Qed.

(** ** The fractional pickup time on the declared domain *)

Lemma fractional_hour_check_domain :
  forallb (fun h => forallb (fractional_hour_check h) (Zrange 0 60))
          (Zrange 0 24) = true.
Proof. vm_compute. reflexivity. Qed.

Lemma exact_conversion_check_domain :
  forallb exact_conversion_check (Zrange 0 121) = true.
Proof. vm_compute. reflexivity. Qed.

Lemma int_truediv_60_minutes :
  Forall (fun m => int_truediv m 60 = inr (float_of_Z m / 60)%float)
         (Zrange 0 60).
Proof.
  repeat (apply Forall_cons; [vm_compute; reflexivity|]). apply Forall_nil.
Qed.

Lemma int_truediv_60_minute (m : Z) :
  0 <= m <= 59 -> int_truediv m 60 = inr (float_of_Z m / 60)%float.
Proof.
  intros Hm. pose proof int_truediv_60_minutes as Hall.
  rewrite Forall_forall in Hall. apply Hall, Zrange_In. simpl. lia.
Qed.

Lemma pickup_time_minute (h m : Z) :
  Z.abs h < overflow_threshold -> 0 <= m <= 59 ->
  pickup_time h m = inr (float_of_Z h + float_of_Z m / 60)%float.
Proof.
  intros Hh Hm. unfold pickup_time, int_add_float.
  rewrite (int_truediv_60_minute m Hm), bind_inr.
  rewrite (py_float_in_range h Hh), bind_inr. reflexivity.
Qed.

(** The division and the addition of line 173 round: 1/60 is not a
    binary64 value, and the sum of two rounded operations need not be the
    double nearest to the real number, as at 1:13. *)
Example pickup_time_rounds :
  pickup_time 0 1 = inr 0x1.1111111111111p-6%float /\
  F2Q 0x1.1111111111111p-6%float = Some (4803839602528529 # 2 ^ 58)%Q /\
  ~ (4803839602528529 # 2 ^ 58 == exact_time 0 1)%Q /\
  pickup_time 1 13 = inr 0x1.3777777777778p+0%float /\
  int_truediv (60 * 1 + 13) 60 = inr 0x1.3777777777777p+0%float.
Proof.
  repeat split; try (vm_compute; reflexivity).
  intros Heq. apply Qeq_bool_iff in Heq. vm_compute in Heq. discriminate.
Qed.

Lemma exact_conversion (z : Z) :
  0 <= z <= 120 ->
  exists q, F2Q (float_of_Z z) = Some q /\ (q == inject_Z z)%Q.
Proof.
  intros Hz.
  pose proof (forallb_Zrange _ _ _ exact_conversion_check_domain z) as Hchk.
  unfold exact_conversion_check in Hchk.
  destruct (F2Q (float_of_Z z)) as [q|]; [|simpl in Hchk; lia].
  exists q. split; [reflexivity|]. apply Qeq_bool_iff, Hchk. simpl. lia.
Qed.

(** C5: for every hour24 in [0,23] and minute in [0,59] the fractional hour
    is computed without an exception and is exactly the binary64 value of
    [hour24 + minute/60], where the conversions of hour24 and minute to
    float are exact and the division and the addition round to nearest.
    This value lies in [hour24, hour24 + 1), in the order of the floats
    and as an exact rational; it is within 2^-49 of the real number
    hour24 + minute/60, and equal to it when minute is a multiple of 15. *)
Theorem toFractionalHour_value (hour24 minute : Z) :
  0 <= hour24 <= 23 ->
  0 <= minute <= 59 ->
  exists (t : float) (q : Q),
    pickup_time hour24 minute = inr t /\
    t = (float_of_Z hour24 + float_of_Z minute / 60)%float /\
    (exists qh, F2Q (float_of_Z hour24) = Some qh /\ (qh == inject_Z hour24)%Q) /\
    (exists qm, F2Q (float_of_Z minute) = Some qm /\ (qm == inject_Z minute)%Q) /\
    (float_of_Z hour24 <=? t)%float = true /\
    (t <? float_of_Z (hour24 + 1))%float = true /\
    F2Q t = Some q /\
    (inject_Z hour24 <= q)%Q /\
    (q < inject_Z hour24 + 1)%Q /\
    (Qabs (q - exact_time hour24 minute) <= 1 # 2 ^ 49)%Q /\
    (minute mod 15 = 0 -> (q == exact_time hour24 minute)%Q).
Proof.
  intros Hh Hm.
  assert (Hthr : Z.abs hour24 < overflow_threshold).
  { pose proof overflow_threshold_large.
    assert (2 ^ 53 = 9007199254740992) by reflexivity. lia. }
  pose proof (pickup_time_minute hour24 minute Hthr Hm) as Ht.
  assert (Hchk : fractional_hour_check hour24 minute = true).
  { pose proof fractional_hour_check_domain as Hall.
    assert (Hh' : 0 <= hour24 < 0 + Z.of_nat 24)
      by (change (Z.of_nat 24) with 24; lia).
    assert (Hm' : 0 <= minute < 0 + Z.of_nat 60)
      by (change (Z.of_nat 60) with 60; lia).
    pose proof (forallb_Zrange _ _ _ Hall hour24 Hh') as Hrow.
    exact (forallb_Zrange _ _ _ Hrow minute Hm'). }
  unfold fractional_hour_check in Hchk. rewrite Ht in Hchk.
  set (t := (float_of_Z hour24 + float_of_Z minute / 60)%float) in *.
  destruct (F2Q t) as [q|] eqn:Hq;
    [|rewrite andb_false_r in Hchk; discriminate].
  rewrite !andb_true_iff in Hchk.
  destruct Hchk as [[Hle Hlt] [[[Hqle Hqlt] Herr] Hex]].
  exists t, q. split; [exact Ht|]. split; [reflexivity|].
  split; [apply exact_conversion; lia|].
  split; [apply exact_conversion; lia|].
  split; [exact Hle|]. split; [exact Hlt|]. split; [exact Hq|].
  split; [apply Qle_bool_iff, Hqle|].
  split.
  { apply Qnot_le_lt. intros Hcontra. apply Qle_bool_iff in Hcontra.
    unfold Qlt_bool in Hqlt. rewrite Hcontra in Hqlt. discriminate. }
  split; [apply Qle_bool_iff, Herr|].
  intros Hmod. apply Z.eqb_eq in Hmod. rewrite Hmod in Hex.
  apply Qeq_bool_iff, Hex.
Qed.

Lemma toFractionalHour_value_witness :
  exists (t : float) (q : Q),
    pickup_time 6 30 = inr t /\ F2Q t = Some q /\ (q == exact_time 6 30)%Q.
Proof.
  destruct (toFractionalHour_value 6 30) as (t & q & Ht & _ & _ & _ & _ & _
                                              & Hq & _ & _ & _ & Hex).
  - lia.
  - lia.
  - exists t, q. split; [exact Ht|]. split; [exact Hq|].
    apply Hex. reflexivity.
Defined.

(** ** The feature vector *)

Lemma float_of_int_of_bool (b : bool) :
  float_of_Z (int_of_bool b) = (if b then 1 else 0)%float.
Proof. destruct b; vm_compute; reflexivity. Qed.

(** C1: for every request of the declared domain the derivation returns
    the 1x5 array whose single row is, in this order, trip_distance,
    trip_duration, the fractional pickup time, the night flag as 1 or 0,
    and passenger_count (the two integers converted to float without
    rounding); the row has length 5. *)
Theorem buildFeatureVector_order (r : Inputs) :
  in_declared_domain r = true ->
  exists t : float,
    pickup_time (pickup_hour_24 (am_pm r) (pickup_hour_12 r))
                (pickup_minute r) = inr t /\
    derive_features r =
      inr [[trip_distance r;
            float_of_Z (trip_duration r);
            t;
            (if is_night (pickup_hour_24 (am_pm r) (pickup_hour_12 r))
             then 1 else 0)%float;
            float_of_Z (passenger_count r)]] /\
    (exists q, F2Q (float_of_Z (trip_duration r)) = Some q /\
               (q == inject_Z (trip_duration r))%Q) /\
    (exists q, F2Q (float_of_Z (passenger_count r)) = Some q /\
               (q == inject_Z (passenger_count r))%Q) /\
    (forall rows, derive_features r = inr rows ->
                  exists row, rows = [row] /\ length row = 5%nat).
Proof.
  intros Hdom.
  destruct (derive_features_in_range r (declared_domain_in_float_range r Hdom))
    as (t & Ht & Hrow).
  rewrite float_of_int_of_bool in Hrow.
  unfold in_declared_domain in Hdom. rewrite andb_true_iff in Hdom.
  destruct Hdom as [Hranges _]. apply in_declared_ranges_spec in Hranges.
  destruct Hranges as (Hpc & _ & Hdur & _ & _).
  exists t. split; [exact Ht|]. split; [exact Hrow|].
  split; [apply exact_conversion; lia|].
  split; [apply exact_conversion; lia|].
  intros rows Hrows. rewrite Hrow in Hrows. injection Hrows as <-.
  eexists. split; reflexivity.
Qed.

Lemma buildFeatureVector_order_witness :
  derive_features (request_at 11 0 "PM") = inr [[5; 15; 23; 1; 1]]%float.
Proof.
  destruct (buildFeatureVector_order (request_at 11 0 "PM"))
    as (t & Ht & Hrow & _).
  - reflexivity.
  - vm_compute in Ht. injection Ht as <-. rewrite Hrow. vm_compute. reflexivity.
Defined.

(** C8: for the request distance 0.5, duration 2, 12:00 AM, 6 passengers
    the derivation yields hour24 = 0, fractional hour 0.0, night flag true
    and the feature vector [0.5, 2, 0.0, 1, 6]. *)
Theorem scenario_2_features :
  pickup_hour_24 (am_pm scenario_2) (pickup_hour_12 scenario_2) = 0 /\
  pickup_time 0 (pickup_minute scenario_2) = inr 0%float /\
  is_night 0 = true /\
  derive_features scenario_2 = inr [[0.5; 2; 0; 1; 6]]%float.
Proof. evaluate. Qed.

(** C4, as stated, fails: the request with pickup_hour_12 = 13 is outside
    the declared ranges and the derivation does not fail on it. *)
Lemma validation_counterexample :
  ~ (derive_features (request_at 13 0 "PM") = inl (Raised "ValidationError")
     <-> in_declared_ranges (request_at 13 0 "PM") = false).
Proof.
  intros [_ Hfail]. specialize (Hfail eq_refl).
  vm_compute in Hfail. discriminate Hfail.
Qed.

(** C4, amended: the derivation makes no range validation.  It succeeds on
    every input inside the declared ranges, it never fails with a
    ValidationError, and its only failure is the OverflowError of an integer
    too large for a float. *)
Theorem buildFeatureVector_no_validation (r : Inputs) :
  (in_declared_ranges r = true -> succeeds (derive_features r)) /\
  derive_features r <> inl (Raised "ValidationError") /\
  (fails (derive_features r) <-> ~ in_float_range r) /\
  (fails (derive_features r) -> derive_features r = inl OverflowError).
Proof.
  assert (Hin : in_float_range r -> succeeds (derive_features r)).
  { intros Hr. destruct (derive_features_in_range r Hr) as (t & _ & ->).
    eexists. reflexivity. }
  assert (Hdec : in_float_range r \/ ~ in_float_range r).
  { unfold in_float_range. lia. }
  split; [|split; [|split]].
  - intros Hr. apply Hin, declared_ranges_in_float_range, Hr.
  - destruct Hdec as [Hr|Hr].
    + destruct (Hin Hr) as [a ->]. discriminate.
    + rewrite (derive_features_out_of_range r Hr). discriminate.
  - split.
    + intros Hf Hr. exact (succeeds_not_fails _ (Hin Hr) Hf).
    + intros Hr. exists OverflowError. apply derive_features_out_of_range, Hr.
  - intros Hf. destruct Hdec as [Hr|Hr].
    + destruct (succeeds_not_fails _ (Hin Hr) Hf).
    + apply derive_features_out_of_range, Hr.
Qed.

(** C10, as stated, fails: with pickup_hour_12 = 2^1024 the conversion to
    the 24-hour clock returns 2^1024 + 12, and line 173 then raises
    OverflowError when it converts this integer to float; no fractional
    hour and no vector are computed. *)
Lemma unchecked_derivation_counterexample :
  pickup_hour_24 "PM" (2 ^ 1024) = 2 ^ 1024 + 12 /\
  pickup_time (pickup_hour_24 "PM" (2 ^ 1024)) 0 = inl OverflowError /\
  derive_features (request_at (2 ^ 1024) 0 "PM") = inl OverflowError.
Proof. evaluate. Qed.

(** C10, amended: the derivation has no range check.  For any integer
    hour12 the 24-hour conversion returns a value without raising (hour12
    itself or hour12 + 12 when hour12 is not 12; 13 PM yields 25).  The
    derivation is not total over all integers: line 173 raises
    OverflowError when |hour24| >= 2^1024 - 2^970 or |pickup_minute| >=
    60 * (2^1024 - 2^970), and then neither the night flag nor the vector
    is computed.  Otherwise the fractional hour and, after it, the night
    flag are computed from that value silently, and so is the vector,
    unless |trip_duration| or |passenger_count| >= 2^1024 - 2^970, in which
    case the conversion of the array raises OverflowError. *)
Theorem derivation_has_no_range_check (r : Inputs) :
  (pickup_hour_12 r <> 12 ->
   pickup_hour_24 (am_pm r) (pickup_hour_12 r) =
     if String.eqb (am_pm r) "AM" then pickup_hour_12 r
     else pickup_hour_12 r + 12) /\
  (line_173_in_range r ->
   exists t,
     time_conversion r =
       inr (pickup_hour_24 (am_pm r) (pickup_hour_12 r), t,
            is_night (pickup_hour_24 (am_pm r) (pickup_hour_12 r)))) /\
  (~ line_173_in_range r ->
   time_conversion r = inl OverflowError /\
   derive_features r = inl OverflowError) /\
  (line_173_in_range r ->
   Z.abs (trip_duration r) < overflow_threshold ->
   Z.abs (passenger_count r) < overflow_threshold ->
   exists t,
     time_conversion r =
       inr (pickup_hour_24 (am_pm r) (pickup_hour_12 r), t,
            is_night (pickup_hour_24 (am_pm r) (pickup_hour_12 r))) /\
     derive_features r =
       inr [[trip_distance r;
             float_of_Z (trip_duration r);
             t;
             (if is_night (pickup_hour_24 (am_pm r) (pickup_hour_12 r))
              then 1 else 0)%float;
             float_of_Z (passenger_count r)]]) /\
  (line_173_in_range r ->
   overflow_threshold <= Z.abs (trip_duration r) \/
   overflow_threshold <= Z.abs (passenger_count r) ->
   derive_features r = inl OverflowError) /\
  (Z.abs (pickup_hour_12 r) + 12 < overflow_threshold ->
   Z.abs (pickup_hour_24 (am_pm r) (pickup_hour_12 r)) < overflow_threshold) /\
  pickup_hour_24 "PM" 13 = 25 /\
  time_conversion (request_at 13 0 "PM") = inr (25, 25%float, true) /\
  derive_features (request_at 13 0 "PM") = inr [[5; 15; 25; 1; 1]]%float /\
  pickup_time 0 (2 ^ 1024) = inr 0x1.1111111111111p+1018%float /\
  pickup_time 0 (60 * (2 ^ 1024 - 2 ^ 970)) = inl OverflowError.
Proof.
  assert (Hconv : forall t,
             pickup_time (pickup_hour_24 (am_pm r) (pickup_hour_12 r))
                         (pickup_minute r) = inr t ->
             time_conversion r =
               inr (pickup_hour_24 (am_pm r) (pickup_hour_12 r), t,
                    is_night (pickup_hour_24 (am_pm r) (pickup_hour_12 r)))).
  { intros t Ht. unfold time_conversion. cbv zeta. rewrite Ht. reflexivity. }
  split; [|split; [|split; [|split; [|split; [|split]]]]].
  - intros Hne. unfold pickup_hour_24.
    destruct (String.eqb (am_pm r) "AM"), (Z.eqb_spec (pickup_hour_12 r) 12);
      (reflexivity || contradiction).
  - intros [Hh Hm]. destruct (pickup_time_in_range _ _ Hh Hm) as (frac & _ & Ht).
    eexists. apply Hconv, Ht.
  - intros Hout.
    assert (Ht : pickup_time (pickup_hour_24 (am_pm r) (pickup_hour_12 r))
                             (pickup_minute r) = inl OverflowError).
    { apply pickup_time_out_of_range. unfold line_173_in_range in Hout. lia. }
    split.
    + unfold time_conversion. cbv zeta. rewrite Ht. reflexivity.
    + unfold derive_features. rewrite Ht. reflexivity.
  - intros [Hh Hm] Hdur Hpc.
    destruct (derive_features_in_range r) as (t & Ht & Hrow).
    { unfold in_float_range. repeat split; assumption. }
    rewrite float_of_int_of_bool in Hrow.
    exists t. split; [apply Hconv, Ht|exact Hrow].
  - intros [Hh Hm] Hout. apply derive_features_out_of_range.
    unfold in_float_range. lia.
  - intros Hh.
    pose proof (pickup_hour_24_bound (am_pm r) (pickup_hour_12 r)) as Hb. lia.
  - evaluate.
Qed.

(** C7: the night classification does not depend on the minute.  Two
    requests of the declared domain that agree on hour12 and meridiem have
    the same night flag, and it is the fourth entry of both feature
    vectors, whatever their minutes; a 5:59 AM pickup is classified night
    and a 6:00 AM pickup is classified day. *)
Theorem night_ignores_minute :
  (forall r1 r2 : Inputs,
     in_declared_domain r1 = true ->
     in_declared_domain r2 = true ->
     pickup_hour_12 r1 = pickup_hour_12 r2 ->
     am_pm r1 = am_pm r2 ->
     is_night (pickup_hour_24 (am_pm r1) (pickup_hour_12 r1)) =
     is_night (pickup_hour_24 (am_pm r2) (pickup_hour_12 r2)) /\
     exists row1 row2 : list float,
       derive_features r1 = inr [row1] /\
       derive_features r2 = inr [row2] /\
       nth_error row1 3 = nth_error row2 3 /\
       nth_error row1 3 =
         Some (if is_night (pickup_hour_24 (am_pm r1) (pickup_hour_12 r1))
               then 1 else 0)%float) /\
  is_night (pickup_hour_24 "AM" 5) = true /\
  (exists row, derive_features (request_at 5 59 "AM") = inr [row] /\
               nth_error row 3 = Some 1%float) /\
  is_night (pickup_hour_24 "AM" 6) = false /\
  (exists row, derive_features (request_at 6 0 "AM") = inr [row] /\
               nth_error row 3 = Some 0%float).
Proof.
  split.
  - intros r1 r2 Hd1 Hd2 Hh Hs.
    destruct (derive_features_in_range r1 (declared_domain_in_float_range r1 Hd1))
      as (t1 & _ & Hrow1).
    destruct (derive_features_in_range r2 (declared_domain_in_float_range r2 Hd2))
      as (t2 & _ & Hrow2).
    rewrite float_of_int_of_bool in Hrow1, Hrow2.
    split; [now rewrite Hh, Hs|].
    do 2 eexists. split; [exact Hrow1|]. split; [exact Hrow2|].
    simpl. rewrite Hh, Hs. split; reflexivity.
  - split; [reflexivity|]. split.
    + eexists. split; [vm_compute; reflexivity|reflexivity].
    + split; [reflexivity|].
      eexists. split; [vm_compute; reflexivity|reflexivity].
Qed.

(** ** The prediction path *)

Section PredictionPath.

(** The model object that [load_model] returned. *)
Variable model : Model.

(** What one run of the script does when the button was pressed. *)
Lemma run_app_clicked (r : Inputs) :
  predict_clicked r = true ->
  run_app model r =
    match pickup_time (pickup_hour_24 (am_pm r) (pickup_hour_12 r))
                      (pickup_minute r) with
    | inl e => ([], inl e)
    | inr t =>
        if is_fitted model then
          match input_data (trip_distance r) (trip_duration r) t
                  (is_night (pickup_hour_24 (am_pm r) (pickup_hour_12 r)))
                  (passenger_count r) with
          | inl e => ([CheckIsFitted], inl e)
          | inr X =>
              ([CheckIsFitted; Predict X],
               ys <- predict model X ;;
               predicted_fare <- getitem0 ys ;;
               ret (Some predicted_fare))
          end
        else ([CheckIsFitted], inl NotFittedError)
    end.
Proof.
  intros Hclick. unfold run_app, app. rewrite Hclick. cbv zeta.
  destruct (pickup_time _ _) as [e|t]; [reflexivity|].
  unfold check_is_fitted, model_predict, lift, emit.
  cbn [bind ret Monad_script].
  change ([] ++ [CheckIsFitted]) with [CheckIsFitted].
  destruct (is_fitted model); [|reflexivity].
  cbv beta iota.
  destruct (input_data _ _ _ _ _) as [e|X]; [reflexivity|].
  change ([CheckIsFitted] ++ [Predict X]) with [CheckIsFitted; Predict X].
  destruct (predict model X) as [e|ys]; [reflexivity|].
  rewrite bind_inr. destruct (getitem0 ys); reflexivity.
Qed.

(** Without a click the model is not touched. *)
Lemma run_app_not_clicked (r : Inputs) :
  predict_clicked r = false ->
  fst (run_app model r) = [].
Proof.
  intros Hclick. unfold run_app, app. rewrite Hclick. cbv zeta.
  unfold lift. cbn [bind ret Monad_script].
  destruct (pickup_time _ _); reflexivity.
Qed.

Lemma checked_before_predict_nil : checked_before_predict [].
Proof. intros [|ev pre] X post Heq; discriminate. Qed.

Lemma checked_before_predict_check (tr : list event) :
  checked_before_predict (CheckIsFitted :: tr).
Proof.
  intros [|ev pre] X post Heq; [discriminate|].
  injection Heq as <- _. now left.
Qed.

Lemma no_predict_check : no_predict [CheckIsFitted].
Proof. intros X [Hin|[]]. discriminate. Qed.

(** The trace of a run with the button pressed: empty when line 173
    raised, otherwise the readiness check followed by at most one call of
    [predict]. *)
Lemma run_app_trace (r : Inputs) :
  predict_clicked r = true ->
  fst (run_app model r) = [] \/
  fst (run_app model r) = [CheckIsFitted] \/
  exists X, fst (run_app model r) = [CheckIsFitted; Predict X].
Proof.
  intros Hclick. rewrite (run_app_clicked r Hclick).
  destruct (pickup_time _ _) as [e|t]; [now left|right].
  destruct (is_fitted model); [|now left].
  destruct (input_data _ _ _ _ _) as [e|X]; [now left|right].
  exists X. reflexivity.
Qed.

(** C9: on every prediction request (a run of the script with the button
    pressed) a call of [predict] is made only after the readiness check,
    and when the model is not fitted no prediction is attempted; on a
    request of the declared domain the readiness check is the first call
    on the model, an unfitted model makes the request fail with
    NotFittedError after that check alone, and a fitted model is then
    asked once for the prediction of the derived features. *)
Theorem readiness_check_precedes_predict (r : Inputs) :
  predict_clicked r = true ->
  checked_before_predict (fst (run_app model r)) /\
  (is_fitted model = false -> no_predict (fst (run_app model r))) /\
  (in_declared_domain r = true ->
   (exists rest, fst (run_app model r) = CheckIsFitted :: rest) /\
   (is_fitted model = false ->
    run_app model r = ([CheckIsFitted], inl NotFittedError)) /\
   (is_fitted model = true ->
    exists X, derive_features r = inr X /\
              fst (run_app model r) = [CheckIsFitted; Predict X])).
Proof.
  intros Hclick. split; [|split].
  - destruct (run_app_trace r Hclick) as [-> | [-> | [X ->]]].
    + apply checked_before_predict_nil.
    + apply checked_before_predict_check.
    + apply checked_before_predict_check.
  - intros Hfit. rewrite (run_app_clicked r Hclick), Hfit.
    destruct (pickup_time _ _) as [e|t]; simpl.
    + intros X [].
    + apply no_predict_check.
  - intros Hdom.
    destruct (derive_features_in_range r (declared_domain_in_float_range r Hdom))
      as (t & Ht & Hrow).
    pose proof (run_app_clicked r Hclick) as Hrun.
    rewrite Ht in Hrun.
    unfold derive_features in Hrow. rewrite Ht, bind_inr in Hrow.
    rewrite Hrow in Hrun.
    split; [|split].
    + rewrite Hrun. destruct (is_fitted model); eexists; reflexivity.
    + intros Hfit. rewrite Hrun, Hfit. reflexivity.
    + intros Hfit. rewrite Hfit in Hrun. eexists.
      split; [|rewrite Hrun; reflexivity].
      unfold derive_features. rewrite Ht, bind_inr. exact Hrow.
Qed.

End PredictionPath.

Lemma readiness_check_precedes_predict_witness :
  run_app {| is_fitted := false; predict := fun _ => inr [0%float] |}
          scenario_2
  = ([CheckIsFitted], inl NotFittedError).
Proof.
  destruct (readiness_check_precedes_predict
              {| is_fitted := false; predict := fun _ => inr [0%float] |}
              scenario_2) as (_ & _ & Hdom).
  - reflexivity.
  - destruct Hdom as (_ & Hunfit & _).
    + reflexivity.
    + apply Hunfit. reflexivity.
Defined.

(** * Further properties of the script *)

(** ** The order of the failures of a run *)

Lemma line_173_succeeds (r : Inputs) :
  line_173_in_range r ->
  exists t, pickup_time (pickup_hour_24 (am_pm r) (pickup_hour_12 r))
                        (pickup_minute r) = inr t.
Proof.
  intros [Hh Hm]. destruct (pickup_time_in_range _ _ Hh Hm) as (frac & _ & Ht).
  eexists. exact Ht.
Qed.

Lemma line_173_raises (r : Inputs) :
  ~ line_173_in_range r ->
  pickup_time (pickup_hour_24 (am_pm r) (pickup_hour_12 r))
              (pickup_minute r) = inl OverflowError.
Proof.
  intros Hout. apply pickup_time_out_of_range.
  unfold line_173_in_range in Hout. lia.
Qed.

Lemma in_float_range_line_173 (r : Inputs) :
  in_float_range r -> line_173_in_range r.
Proof. intros (Hh & Hm & _). split; assumption. Qed.

Lemma run_app_unclicked (model : Model) (r : Inputs) :
  predict_clicked r = false ->
  run_app model r =
    match pickup_time (pickup_hour_24 (am_pm r) (pickup_hour_12 r))
                      (pickup_minute r) with
    | inl e => ([], inl e)
    | inr _ => ([], inr None)
    end.
Proof.
  intros Hclick. unfold run_app, app. rewrite Hclick. cbv zeta.
  unfold lift. cbn [bind ret Monad_script].
  destruct (pickup_time _ _); reflexivity.
Qed.

(** X1: a run makes at most two calls on the model.  Its trace is empty, or
    the readiness check alone, or the readiness check followed by one call
    of [predict]; the latter happens only for a pressed button and a fitted
    model, and the argument of [predict] is the derived feature array. *)
Theorem model_calls_shape (model : Model) (r : Inputs) :
  fst (run_app model r) = [] \/
  fst (run_app model r) = [CheckIsFitted] \/
  exists X,
    fst (run_app model r) = [CheckIsFitted; Predict X] /\
    derive_features r = inr X /\
    is_fitted model = true /\
    predict_clicked r = true.
Proof.
  destruct (predict_clicked r) eqn:Hclick.
  - rewrite (run_app_clicked model r Hclick). unfold derive_features.
    destruct (pickup_time _ _) as [e|t]; [now left|right].
    destruct (is_fitted model); [|now left].
    rewrite bind_inr.
    destruct (input_data _ _ _ _ _) as [e|X]; [now left|right].
    exists X. repeat split; reflexivity.
  - left. apply run_app_not_clicked, Hclick.
Qed.

(** X2: with the button pressed, a fitted model and integers in the range
    of the floats, the run makes the readiness check and one [predict] call
    on the derived features, and its outcome is that of the call: an
    exception of the predictor is propagated unchanged, an empty array of
    predictions raises IndexError, and otherwise the first prediction is the
    fare (further predictions are ignored). *)
Theorem prediction_outcome (model : Model) (r : Inputs) :
  predict_clicked r = true ->
  is_fitted model = true ->
  in_float_range r ->
  exists X,
    derive_features r = inr X /\
    run_app model r =
      ([CheckIsFitted; Predict X], first_prediction (predict model X)).
Proof.
  intros Hclick Hfit Hr.
  destruct (derive_features_in_range r Hr) as (t & Ht & Hrow).
  eexists. split; [exact Hrow|].
  rewrite (run_app_clicked model r Hclick), Ht, Hfit.
  unfold derive_features in Hrow. rewrite Ht, bind_inr in Hrow. rewrite Hrow.
  f_equal. destruct (predict model _) as [e|[|y ys]]; reflexivity.
Qed.

Lemma prediction_outcome_witness :
  snd (run_app (failing_model "ValueError") scenario_2)
  = inl (Raised "ValueError").
Proof.
  destruct (prediction_outcome (failing_model "ValueError") scenario_2)
    as (X & _ & Hrun).
  - reflexivity.
  - reflexivity.
  - apply declared_domain_in_float_range. reflexivity.
  - rewrite Hrun. reflexivity.
Defined.

(** X3: the failures of a run come in the order of the statements.  When
    line 173 overflows, the run fails with OverflowError before the model
    is touched, whether or not the button was pressed and whatever the
    model; otherwise, with the button pressed, an unfitted model gives
    NotFittedError even when the conversion of the feature array would
    overflow, and a fitted model gives the OverflowError of that conversion
    before any call of [predict]. *)
Theorem failure_order (model : Model) (r : Inputs) :
  (~ line_173_in_range r -> run_app model r = ([], inl OverflowError)) /\
  (line_173_in_range r -> predict_clicked r = true ->
   is_fitted model = false ->
   run_app model r = ([CheckIsFitted], inl NotFittedError)) /\
  (line_173_in_range r -> predict_clicked r = true ->
   is_fitted model = true -> ~ in_float_range r ->
   run_app model r = ([CheckIsFitted], inl OverflowError)).
Proof.
  split; [|split].
  - intros Hout. pose proof (line_173_raises r Hout) as Ht.
    destruct (predict_clicked r) eqn:Hclick.
    + rewrite (run_app_clicked model r Hclick), Ht. reflexivity.
    + rewrite (run_app_unclicked model r Hclick), Ht. reflexivity.
  - intros Hin Hclick Hfit. destruct (line_173_succeeds r Hin) as [t Ht].
    rewrite (run_app_clicked model r Hclick), Ht, Hfit. reflexivity.
  - intros Hin Hclick Hfit Hout. destruct (line_173_succeeds r Hin) as [t Ht].
    rewrite (run_app_clicked model r Hclick), Ht, Hfit.
    rewrite input_data_out_of_range; [reflexivity|].
    destruct Hin as [Hh Hm]. unfold in_float_range in Hout. lia.
Qed.

Lemma failure_order_witness :
  run_app unfitted_model
    {| passenger_count := 1; trip_distance := 5; trip_duration := 2 ^ 1024;
       pickup_hour_12 := 12; pickup_minute := 0; am_pm := "PM";
       predict_clicked := true |}
  = ([CheckIsFitted], inl NotFittedError).
Proof.
  apply failure_order.
  - split; vm_compute; reflexivity.
  - reflexivity.
  - reflexivity.
Defined.

(** X4: without a press of the button the run touches neither the model
    nor the feature array: whenever line 173 succeeds it ends normally
    with no fare, even for a trip duration or a passenger count too large
    for the conversion of lines 199-203. *)
Theorem no_click_no_prediction (model : Model) (r : Inputs) :
  predict_clicked r = false ->
  line_173_in_range r ->
  run_app model r = ([], inr None).
Proof.
  intros Hclick Hin. destruct (line_173_succeeds r Hin) as [t Ht].
  rewrite (run_app_unclicked model r Hclick), Ht. reflexivity.
Qed.

Lemma no_click_no_prediction_witness :
  run_app unfitted_model
    {| passenger_count := 1; trip_distance := 5; trip_duration := 2 ^ 1024;
       pickup_hour_12 := 12; pickup_minute := 0; am_pm := "PM";
       predict_clicked := false |}
  = ([], inr None).
Proof.
  apply no_click_no_prediction.
  - reflexivity.
  - split; vm_compute; reflexivity.
Defined.

(** ** The displayed pickup time *)

Lemma to_int_proper (z : Z) :
  Z.to_int z <> Decimal.Pos Decimal.Nil /\
  Z.to_int z <> Decimal.Neg Decimal.Nil.
Proof.
  destruct z as [|p|p]; simpl; split; try discriminate;
    intros [= Hnil]; exact (DecimalPos.Unsigned.to_uint_nonnil p Hnil).
Qed.

(** [int(str(z))] is [z]. *)
Lemma parse_py_str_int (z : Z) : parse_int (py_str_int z) = Some z.
Proof.
  unfold parse_int, py_str_int. destruct (to_int_proper z) as [Hpos Hneg].
  rewrite (DecimalString.NilZero.isi _ Hpos Hneg). simpl.
  now rewrite DecimalZ.of_to.
Qed.

Lemma string_of_uint_lacks (c : ascii) (d : Decimal.uint) :
  separator c -> lacks c (DecimalString.NilEmpty.string_of_uint d).
Proof.
  intros Hc. induction d; simpl; try exact I;
    (split; [destruct Hc as [-> | ->]; discriminate|assumption]).
Qed.

Lemma py_str_int_lacks (c : ascii) (z : Z) :
  separator c -> lacks c (py_str_int z).
Proof.
  intros Hc. unfold py_str_int.
  assert (Hu : forall d, lacks c (DecimalString.NilZero.string_of_uint d)).
  { intros d. destruct d; try apply (string_of_uint_lacks c _ Hc).
    simpl. split; [destruct Hc as [-> | ->]; discriminate|exact I]. }
  destruct (Z.to_int z) as [d|d]; simpl; [apply Hu|].
  split; [destruct Hc as [-> | ->]; discriminate|apply Hu].
Qed.

Lemma format_02d_lacks (c : ascii) (z : Z) :
  separator c -> lacks c (format_02d z).
Proof.
  intros Hc. unfold format_02d.
  destruct (z <? 0); [apply py_str_int_lacks, Hc|].
  destruct (z <? 10); [|apply py_str_int_lacks, Hc].
  simpl. split; [destruct Hc as [-> | ->]; discriminate|].
  apply py_str_int_lacks, Hc.
Qed.

(** Two texts cut at the first occurrence of [c] have equal parts. *)
Lemma split_at_first (c : ascii) (s1 : string) :
  forall s2 t1 t2,
    lacks c s1 -> lacks c s2 ->
    (s1 ++ String c t1 = s2 ++ String c t2)%string ->
    s1 = s2 /\ t1 = t2.
Proof.
  induction s1 as [|a s1 IH]; intros [|b s2] t1 t2 H1 H2 Heq; simpl in *.
  - injection Heq as <-. split; reflexivity.
  - injection Heq as <- _. destruct H2 as [Hne _]. now destruct Hne.
  - injection Heq as -> _. destruct H1 as [Hne _]. now destruct Hne.
  - injection Heq as <- Heq. destruct H1 as [_ H1], H2 as [_ H2].
    destruct (IH s2 t1 t2 H1 H2 Heq) as [-> ->]. split; reflexivity.
Qed.

Lemma parse_format_02d (z : Z) : parse_int (format_02d z) = Some z.
Proof.
  unfold format_02d. destruct (Z.ltb_spec z 0); [apply parse_py_str_int|].
  destruct (Z.ltb_spec z 10); [|apply parse_py_str_int].
  assert (Hz : In z (Zrange 0 10)) by (apply Zrange_In; simpl; lia).
  simpl in Hz. repeat (destruct Hz as [<- | Hz]; [reflexivity|]).
  destruct Hz.
Qed.

Lemma format_02d_injective (a b : Z) : format_02d a = format_02d b -> a = b.
Proof.
  intros Hab. pose proof (parse_format_02d a) as Ha.
  rewrite Hab, parse_format_02d in Ha. congruence.
Qed.

Lemma format_02d_width (z : Z) :
  0 <= z <= 99 -> String.length (format_02d z) = 2%nat.
Proof.
  intros Hz.
  assert (Hall : forallb (fun k => (String.length (format_02d k) =? 2)%nat)
                         (Zrange 0 100) = true) by (vm_compute; reflexivity).
  apply Nat.eqb_eq. apply (forallb_Zrange _ _ _ Hall z).
  change (Z.of_nat 100) with 100. lia.
Qed.

Lemma digit_limit_above_float_range :
  overflow_threshold * 60 < 10 ^ int_max_str_digits.
Proof. apply Z.ltb_lt. vm_compute. reflexivity. Qed.

Lemma field_02d_in_limit (z : Z) :
  Z.abs z < 10 ^ int_max_str_digits -> field_02d z = inr (format_02d z).
Proof.
  intros Hz. unfold field_02d.
  destruct (Z.ltb_spec (Z.abs z) (10 ^ int_max_str_digits)); [reflexivity|lia].
Qed.

Lemma field_02d_over_limit (z : Z) :
  10 ^ int_max_str_digits <= Z.abs z ->
  field_02d z = inl (Raised "ValueError").
Proof.
  intros Hz. unfold field_02d.
  destruct (Z.ltb_spec (Z.abs z) (10 ^ int_max_str_digits)); [lia|reflexivity].
Qed.

(** X5: the zero padding of [{z:02d}] neither changes nor truncates the
    number.  For every integer of at most 4300 digits, negative or of more
    than two digits included, the field is formatted and the text reads
    back as the same integer; it has exactly two characters for 0..99.
    For an integer of more digits the field raises ValueError. *)
Theorem format_02d_round_trip (z : Z) :
  (Z.abs z < 10 ^ int_max_str_digits ->
   exists text,
     field_02d z = inr text /\
     parse_int text = Some z /\
     (0 <= z <= 99 -> String.length text = 2%nat)) /\
  (10 ^ int_max_str_digits <= Z.abs z ->
   field_02d z = inl (Raised "ValueError")).
Proof.
  split; [|apply field_02d_over_limit].
  intros Hz. exists (format_02d z).
  split; [apply field_02d_in_limit, Hz|].
  split; [apply parse_format_02d|apply format_02d_width].
Qed.

Lemma format_02d_round_trip_witness :
  (exists text, field_02d 7 = inr text /\ parse_int text = Some 7) /\
  field_02d (10 ^ 4300) = inl (Raised "ValueError").
Proof.
  split.
  - destruct (format_02d_round_trip 7) as [Hin _].
    destruct Hin as (text & Hf & Hp & _).
    + apply Z.ltb_lt. vm_compute. reflexivity.
    + exists text. split; assumption.
  - apply (format_02d_round_trip (10 ^ 4300)).
    apply Z.leb_le. vm_compute. reflexivity.
Defined.

Lemma pickup_display_inj (h1 m1 : Z) (s1 : string) (h2 m2 : Z) (s2 : string) :
  pickup_display h1 m1 s1 = pickup_display h2 m2 s2 ->
  h1 = h2 /\ m1 = m2 /\ s1 = s2.
Proof.
  unfold pickup_display. intros Heq.
  assert (Hsep1 : separator ":"%char) by (left; reflexivity).
  assert (Hsep2 : separator " "%char) by (right; reflexivity).
  apply (split_at_first ":"%char) in Heq;
    try (apply format_02d_lacks; assumption).
  destruct Heq as [Hh Heq].
  apply (split_at_first " "%char) in Heq;
    try (apply format_02d_lacks; assumption).
  destruct Heq as [Hm Hs].
  repeat split;
    [apply format_02d_injective, Hh|apply format_02d_injective, Hm|exact Hs].
Qed.

Lemma pickup_hour_12_bound (s : string) (h : Z) :
  Z.abs h <= Z.abs (pickup_hour_24 s h) + 12.
Proof.
  unfold pickup_hour_24.
  destruct (String.eqb s "AM"), (Z.eqb_spec h 12); lia.
Qed.

Lemma pickup_display_field_in_limit (h m : Z) (s : string) :
  Z.abs h < 10 ^ int_max_str_digits ->
  Z.abs m < 10 ^ int_max_str_digits ->
  pickup_display_field h m s = inr (pickup_display h m s).
Proof.
  intros Hh Hm. unfold pickup_display_field.
  rewrite (field_02d_in_limit h Hh), bind_inr.
  rewrite (field_02d_in_limit m Hm), bind_inr. reflexivity.
Qed.

Lemma pickup_display_field_over_limit (h m : Z) (s : string) :
  10 ^ int_max_str_digits <= Z.abs h \/ 10 ^ int_max_str_digits <= Z.abs m ->
  pickup_display_field h m s = inl (Raised "ValueError").
Proof.
  intros Hover. unfold pickup_display_field.
  destruct (Z.le_gt_cases (10 ^ int_max_str_digits) (Z.abs h)) as [Hh|Hh].
  - rewrite (field_02d_over_limit h Hh). reflexivity.
  - rewrite (field_02d_in_limit h Hh), bind_inr.
    rewrite field_02d_over_limit by lia. reflexivity.
Qed.

(** X6: the displayed pickup time of line 214 identifies the inputs:
    whenever two displays are produced and are the same text, hour, minute
    and meridiem are the same, whatever the integers and the strings.  The
    display fails, with ValueError, exactly when the hour or the minute has
    more than 4300 digits, which does not happen for inputs on which
    line 173 succeeded: for these the text is the padded hour, a colon,
    the padded minute, a space and the meridiem. *)
Theorem pickup_display_injective (h1 m1 : Z) (s1 : string) (h2 m2 : Z)
    (s2 : string) :
  (forall text,
     pickup_display_field h1 m1 s1 = inr text ->
     pickup_display_field h2 m2 s2 = inr text ->
     h1 = h2 /\ m1 = m2 /\ s1 = s2) /\
  (fails (pickup_display_field h1 m1 s1) <->
   10 ^ int_max_str_digits <= Z.abs h1 \/
   10 ^ int_max_str_digits <= Z.abs m1) /\
  (Z.abs (pickup_hour_24 s1 h1) < overflow_threshold ->
   Z.abs m1 < overflow_threshold * 60 ->
   pickup_display_field h1 m1 s1 = inr (pickup_display h1 m1 s1)).
Proof.
  assert (Hcases : forall h m : Z,
             (Z.abs h < 10 ^ int_max_str_digits /\
              Z.abs m < 10 ^ int_max_str_digits) \/
             (10 ^ int_max_str_digits <= Z.abs h \/
              10 ^ int_max_str_digits <= Z.abs m)) by (intros; lia).
  split; [|split].
  - intros text H1 H2.
    destruct (Hcases h1 m1) as [[Hh1 Hm1]|Hover1];
      [|rewrite (pickup_display_field_over_limit _ _ _ Hover1) in H1;
        discriminate].
    destruct (Hcases h2 m2) as [[Hh2 Hm2]|Hover2];
      [|rewrite (pickup_display_field_over_limit _ _ _ Hover2) in H2;
        discriminate].
    rewrite (pickup_display_field_in_limit _ _ _ Hh1 Hm1) in H1.
    rewrite (pickup_display_field_in_limit _ _ _ Hh2 Hm2) in H2.
    apply pickup_display_inj. congruence.
  - split.
    + intros [e He]. destruct (Hcases h1 m1) as [[Hh1 Hm1]|Hover1];
        [|exact Hover1].
      rewrite (pickup_display_field_in_limit _ _ _ Hh1 Hm1) in He.
      discriminate.
    + intros Hover. eexists.
      apply pickup_display_field_over_limit, Hover.
  - intros Hh Hm. pose proof digit_limit_above_float_range as Hlim.
    pose proof overflow_threshold_large as Hlarge.
    pose proof (pickup_hour_12_bound s1 h1) as Hb.
    assert (H53 : 2 ^ 53 = 9007199254740992) by reflexivity.
    apply pickup_display_field_in_limit; lia.
Qed.

Lemma pickup_display_injective_witness :
  pickup_display_field 7 5 "PM" = inr (pickup_display 7 5 "PM").
Proof.
  apply (pickup_display_injective 7 5 "PM" 7 5 "PM").
  - apply Z.ltb_lt. vm_compute. reflexivity.
  - apply Z.ltb_lt. vm_compute. reflexivity.
Defined.

(** ** The fractional pickup time as an encoding of the time of day *)

Lemma time_order_check_holds : time_order_check = true.
Proof. vm_compute. reflexivity. Qed.

Lemma In_pickup_times (h m : Z) :
  0 <= h <= 23 -> 0 <= m <= 59 ->
  In (60 * h + m, pickup_time h m) pickup_times.
Proof.
  intros Hh Hm. unfold pickup_times.
  assert (Hdiv : (60 * h + m) / 60 = h)
    by (symmetry; apply (Z.div_unique (60 * h + m) 60 h m); lia).
  assert (Hmod : (60 * h + m) mod 60 = m)
    by (symmetry; apply (Z.mod_unique (60 * h + m) 60 h m); lia).
  rewrite <- Hdiv at 2. rewrite <- Hmod at 3.
  apply (in_map (fun k => (k, pickup_time (k / 60) (k mod 60)))).
  apply Zrange_In. change (Z.of_nat 1440) with 1440. lia.
Qed.

Lemma pickup_time_same_order (h1 m1 h2 m2 : Z) :
  0 <= h1 <= 23 -> 0 <= m1 <= 59 ->
  0 <= h2 <= 23 -> 0 <= m2 <= 59 ->
  exists t1 t2,
    pickup_time h1 m1 = inr t1 /\
    pickup_time h2 m2 = inr t2 /\
    (t1 <? t2)%float = (60 * h1 + m1 <? 60 * h2 + m2) /\
    (t1 =? t2)%float = (60 * h1 + m1 =? 60 * h2 + m2).
Proof.
  intros Hh1 Hm1 Hh2 Hm2. pose proof time_order_check_holds as Hchk.
  unfold time_order_check in Hchk. cbv zeta in Hchk.
  rewrite forallb_forall in Hchk.
  specialize (Hchk _ (In_pickup_times h1 m1 Hh1 Hm1)).
  rewrite forallb_forall in Hchk.
  specialize (Hchk _ (In_pickup_times h2 m2 Hh2 Hm2)).
  unfold same_order in Hchk. cbn [fst snd] in Hchk.
  destruct (pickup_time h1 m1) as [e1|t1]; [discriminate|].
  destruct (pickup_time h2 m2) as [e2|t2]; [discriminate|].
  apply andb_true_iff in Hchk. destruct Hchk as [Hlt Heq].
  exists t1, t2. repeat split; [apply eqb_prop, Hlt|apply eqb_prop, Heq].
Qed.

Lemma pickup_time_inj (h1 m1 h2 m2 : Z) :
  0 <= h1 <= 23 -> 0 <= m1 <= 59 ->
  0 <= h2 <= 23 -> 0 <= m2 <= 59 ->
  pickup_time h1 m1 = pickup_time h2 m2 -> h1 = h2 /\ m1 = m2.
Proof.
  intros Hh1 Hm1 Hh2 Hm2 Heq.
  destruct (pickup_time_same_order h1 m1 h1 m1 Hh1 Hm1 Hh1 Hm1)
    as (t1 & t1' & Ht1 & Ht1' & _ & Hrefl).
  destruct (pickup_time_same_order h1 m1 h2 m2 Hh1 Hm1 Hh2 Hm2)
    as (u1 & t2 & Hu1 & Ht2 & _ & Hcmp).
  rewrite Ht1 in Ht1', Hu1, Heq. injection Ht1' as <-. injection Hu1 as <-.
  rewrite Ht2 in Heq. injection Heq as <-.
  rewrite Hrefl, Z.eqb_refl in Hcmp. symmetry in Hcmp.
  apply Z.eqb_eq in Hcmp. lia.
Qed.

(** X7: on the 24 hours and 60 minutes of the widgets the fractional hour
    is computed without an exception and orders the times of the day as
    the clock does, in spite of the rounding of the division and of the
    addition: one float is below the other exactly when its time is
    earlier, and the two floats are equal exactly when hour and minute
    are. *)
Theorem pickup_time_order (h1 m1 h2 m2 : Z) :
  0 <= h1 <= 23 -> 0 <= m1 <= 59 ->
  0 <= h2 <= 23 -> 0 <= m2 <= 59 ->
  exists t1 t2,
    pickup_time h1 m1 = inr t1 /\
    pickup_time h2 m2 = inr t2 /\
    ((t1 <? t2)%float = true <-> 60 * h1 + m1 < 60 * h2 + m2) /\
    ((t1 =? t2)%float = true <-> h1 = h2 /\ m1 = m2) /\
    (t1 = t2 <-> h1 = h2 /\ m1 = m2).
Proof.
  intros Hh1 Hm1 Hh2 Hm2.
  destruct (pickup_time_same_order h1 m1 h2 m2 Hh1 Hm1 Hh2 Hm2)
    as (t1 & t2 & Ht1 & Ht2 & Hlt & Heq).
  exists t1, t2. split; [exact Ht1|]. split; [exact Ht2|].
  split; [rewrite Hlt; apply Z.ltb_lt|].
  split; [rewrite Heq, Z.eqb_eq; lia|].
  split.
  - intros Ht. apply (pickup_time_inj h1 m1 h2 m2); try assumption.
    rewrite Ht1, Ht2, Ht. reflexivity.
  - intros [-> ->]. rewrite Ht1 in Ht2. now injection Ht2.
Qed.

Lemma pickup_time_order_witness :
  exists t1 t2,
    pickup_time 5 59 = inr t1 /\ pickup_time 6 0 = inr t2 /\
    (t1 <? t2)%float = true.
Proof.
  destruct (pickup_time_order 5 59 6 0) as (t1 & t2 & H1 & H2 & Hlt & _);
    try lia.
  exists t1, t2. split; [exact H1|]. split; [exact H2|]. apply Hlt. lia.
Defined.

(** ** The night flag in terms of the 12-hour clock *)

(** X8: in terms of the widgets, a pickup is classified night exactly from
    12 AM to 5 AM and at 10 and 11 PM; the meridiem is compared with "AM"
    only, so that every other string is handled as PM. *)
Theorem night_in_12_hour_terms (s : string) (h : Z) :
  1 <= h <= 12 ->
  (is_night (pickup_hour_24 s h) = true <->
   (s = "AM"%string /\ (h = 12 \/ h <= 5)) \/
   (s <> "AM"%string /\ (h = 10 \/ h = 11))).
Proof.
  intros Hh. unfold is_night, pickup_hour_24. rewrite orb_true_iff.
  destruct (String.eqb_spec s "AM") as [Hs|Hs], (Z.eqb_spec h 12) as [H12|H12];
    split; intros H; try lia;
    repeat match goal with
           | H : _ \/ _ |- _ => destruct H
           | H : _ /\ _ |- _ => destruct H
           end;
    try contradiction; try lia;
    first [left; split; [assumption|lia] | right; split; [assumption|lia]].
Qed.

Lemma night_in_12_hour_terms_witness :
  is_night (pickup_hour_24 "pm" 11) = true.
Proof.
  apply (night_in_12_hour_terms "pm" 11); [lia|].
  right. split; [discriminate|right; reflexivity].
Defined.

(** ** What reaches the predictor *)

Lemma trip_distance_values_finite :
  forallb (finite_in (1 # 2) 50) trip_distance_values = true.
Proof. vm_compute. reflexivity. Qed.

Lemma trip_duration_finite :
  forallb (fun z => finite_in 2 120 (float_of_Z z)) (Zrange 2 119) = true.
Proof. vm_compute. reflexivity. Qed.

Lemma passenger_count_finite :
  forallb (fun z => finite_in 1 6 (float_of_Z z)) (Zrange 1 6) = true.
Proof. vm_compute. reflexivity. Qed.

Lemma pickup_time_finite :
  forallb (fun h => forallb (pickup_time_finite_check h) (Zrange 0 60))
          (Zrange 0 24) = true.
Proof. vm_compute. reflexivity. Qed.

(** X9: for inputs that the widgets can return, the predictor receives
    neither a NaN nor an infinity: the five features are finite floats,
    the distance in [0.5, 50], the duration in [2, 120], the fractional
    hour in [0, 24], the night flag in [0, 1] and the passenger count in
    [1, 6], whatever the meridiem string. *)
Theorem features_finite (r : Inputs) :
  in_declared_ranges r = true ->
  In (trip_distance r) trip_distance_values ->
  exists d dur t n pc,
    derive_features r = inr [[d; dur; t; n; pc]] /\
    finite_in (1 # 2) 50 d = true /\
    finite_in 2 120 dur = true /\
    finite_in 0 24 t = true /\
    finite_in 0 1 n = true /\
    finite_in 1 6 pc = true.
Proof.
  intros Hranges Hd.
  destruct (derive_features_in_range r (declared_ranges_in_float_range r Hranges))
    as (t & Ht & Hrow).
  apply in_declared_ranges_spec in Hranges.
  destruct Hranges as (Hpc & _ & Hdur & Hh & Hm).
  pose proof (pickup_hour_24_range (am_pm r) _ Hh) as Hh24.
  do 5 eexists. split; [exact Hrow|].
  split.
  { pose proof trip_distance_values_finite as Hall.
    rewrite forallb_forall in Hall. apply Hall, Hd. }
  split.
  { apply (forallb_Zrange _ _ _ trip_duration_finite).
    change (Z.of_nat 119) with 119. lia. }
  split.
  { assert (Hh' : 0 <= pickup_hour_24 (am_pm r) (pickup_hour_12 r)
                  < 0 + Z.of_nat 24)
      by (change (Z.of_nat 24) with 24; lia).
    assert (Hm' : 0 <= pickup_minute r < 0 + Z.of_nat 60)
      by (change (Z.of_nat 60) with 60; lia).
    pose proof (forallb_Zrange _ _ _ pickup_time_finite _ Hh') as Hrow'.
    pose proof (forallb_Zrange _ _ _ Hrow' _ Hm') as Hchk.
    unfold pickup_time_finite_check in Hchk. rewrite Ht in Hchk. exact Hchk. }
  split.
  { destruct (is_night _); vm_compute; reflexivity. }
  apply (forallb_Zrange _ _ _ passenger_count_finite).
  change (Z.of_nat 6) with 6. lia.
Qed.

Lemma features_finite_witness :
  exists d dur t n pc,
    derive_features scenario_2 = inr [[d; dur; t; n; pc]] /\
    finite_in 0 24 t = true.
Proof.
  destruct (features_finite scenario_2)
    as (d & dur & t & n & pc & Hrow & _ & _ & Ht & _).
  - reflexivity.
  - left. reflexivity.
  - exists d, dur, t, n, pc. split; [exact Hrow|exact Ht].
Defined.

(** ** The caption and the night feature *)

Lemma one_is_not_zero : 1%float <> 0%float.
Proof.
  intros Heq. pose proof (f_equal (fun x => (x =? 1)%float) Heq) as Hb.
  vm_compute in Hb. discriminate Hb.
Qed.

(** X10: the caption of line 183 and the night feature of the array agree.
    Whenever the derivation succeeds, the caption announces a night ride
    exactly when the fourth feature is 1.0, and a daytime ride exactly
    when it is 0.0. *)
Theorem caption_matches_night_feature (r : Inputs) :
  in_float_range r ->
  exists row,
    derive_features r = inr [row] /\
    (caption (night_label
                (is_night (pickup_hour_24 (am_pm r) (pickup_hour_12 r))))
       = "Detected Ride Time: **🌙 Night / Early Morning Ride**"%string
     <-> nth_error row 3 = Some 1%float) /\
    (caption (night_label
                (is_night (pickup_hour_24 (am_pm r) (pickup_hour_12 r))))
       = "Detected Ride Time: **☀️ Daytime Ride**"%string
     <-> nth_error row 3 = Some 0%float).
Proof.
  intros Hr. destruct (derive_features_in_range r Hr) as (t & _ & Hrow).
  rewrite float_of_int_of_bool in Hrow.
  eexists. split; [exact Hrow|].
  destruct (is_night _); simpl; repeat split;
    try reflexivity; try discriminate;
    intros [= Heq];
    first [destruct (one_is_not_zero Heq)
          |symmetry in Heq; destruct (one_is_not_zero Heq)].
Qed.

Lemma caption_matches_night_feature_witness :
  exists row,
    derive_features (request_at 11 30 "PM") = inr [row] /\
    nth_error row 3 = Some 1%float.
Proof.
  destruct (caption_matches_night_feature (request_at 11 30 "PM"))
    as (row & Hrow & Hnight & _).
  - apply declared_domain_in_float_range. reflexivity.
  - exists row. split; [exact Hrow|]. apply Hnight. reflexivity.
Defined.

(** ** The displayed time and the time feature *)

Lemma pickup_hour_24_inj (s1 s2 : string) (h1 h2 : Z) :
  in_am_pm s1 = true -> in_am_pm s2 = true ->
  1 <= h1 <= 12 -> 1 <= h2 <= 12 ->
  pickup_hour_24 s1 h1 = pickup_hour_24 s2 h2 -> h1 = h2 /\ s1 = s2.
Proof.
  intros Hs1 Hs2 Hh1 Hh2 Heq.
  apply in_am_pm_spec in Hs1. apply in_am_pm_spec in Hs2.
  pose proof (pickup_hour_24_AM_range h1 Hh1).
  pose proof (pickup_hour_24_PM_range h1 Hh1).
  pose proof (pickup_hour_24_AM_range h2 Hh2).
  pose proof (pickup_hour_24_PM_range h2 Hh2).
  destruct Hs1 as [-> | ->], Hs2 as [-> | ->]; try lia;
    rewrite ?pickup_hour_24_AM, ?pickup_hour_24_PM in Heq;
    destruct (Z.eqb_spec h1 12), (Z.eqb_spec h2 12);
    split; (reflexivity || lia).
Qed.

(** X11: on the values of the widgets the time shown in the fare caption
    and the time handed to the model determine each other: two requests
    display the same pickup time exactly when line 173 computes the same
    fractional hour for them. *)
Theorem display_matches_time_feature (h1 m1 : Z) (s1 : string) (h2 m2 : Z)
    (s2 : string) :
  in_pickup_hour_12 h1 = true -> in_pickup_minute m1 = true ->
  in_am_pm s1 = true ->
  in_pickup_hour_12 h2 = true -> in_pickup_minute m2 = true ->
  in_am_pm s2 = true ->
  (pickup_display h1 m1 s1 = pickup_display h2 m2 s2 <->
   pickup_time (pickup_hour_24 s1 h1) m1 = pickup_time (pickup_hour_24 s2 h2) m2).
Proof.
  intros Hh1 Hm1 Hs1 Hh2 Hm2 Hs2.
  apply in_pickup_hour_12_spec in Hh1. apply in_pickup_hour_12_spec in Hh2.
  apply in_pickup_minute_spec in Hm1. apply in_pickup_minute_spec in Hm2.
  split.
  - intros Heq. apply pickup_display_inj in Heq.
    destruct Heq as (-> & -> & ->). reflexivity.
  - intros Heq.
    apply pickup_time_inj in Heq;
      try apply pickup_hour_24_range; try assumption.
    destruct Heq as [Hh ->].
    destruct (pickup_hour_24_inj s1 s2 h1 h2 Hs1 Hs2 Hh1 Hh2 Hh) as [-> ->].
    reflexivity.
Qed.

Lemma display_matches_time_feature_witness :
  pickup_display 12 0 "AM" <> pickup_display 12 0 "PM".
Proof.
  intros Heq.
  apply (display_matches_time_feature 12 0 "AM" 12 0 "PM") in Heq;
    try reflexivity.
  pose proof (f_equal (fun x : result float =>
                         match x with
                         | inr t => (t =? 0)%float
                         | inl _ => false
                         end) Heq) as Hb.
  vm_compute in Hb. discriminate Hb.
Defined.

(** ** The displayed fare *)

Lemma round_half_even_near (q : Q) :
  (- (1 # 2) <= inject_Z (round_half_even q) - q <= 1 # 2)%Q.
Proof.
  unfold round_half_even.
  pose proof (Qfloor_le q) as Hlo. pose proof (Qlt_floor q) as Hhi.
  rewrite inject_Z_plus in Hhi.
  change (inject_Z 1) with 1%Q in Hhi.
  destruct (Qcompare (q - inject_Z (Qfloor q)) (1 # 2)) eqn:Hcmp.
  - apply Qeq_alt in Hcmp.
    destruct (Z.even (Qfloor q)); rewrite ?inject_Z_plus;
      change (inject_Z 1) with 1%Q; lra.
  - apply Qlt_alt in Hcmp. lra.
  - apply Qgt_alt in Hcmp. rewrite inject_Z_plus.
    change (inject_Z 1) with 1%Q. lra.
Qed.

Lemma round_half_even_nonneg (q : Q) : (0 <= q)%Q -> 0 <= round_half_even q.
Proof.
  intros Hq. unfold round_half_even.
  assert (Hf : 0 <= Qfloor q).
  { change 0 with (Qfloor 0). apply Qfloor_resp_le, Hq. }
  destruct (Qcompare _ _); [destruct (Z.even _)| |]; lia.
Qed.

(** X12: the displayed fare is the prediction rounded to the cent.  For a
    finite prediction the text is a dollar sign, a minus sign when the
    prediction is negative (also when the digits are all zero), the dollars,
    a point and exactly two digits of cents, and the amount shown is within
    half a cent of the magnitude of the prediction; a prediction that is
    not finite is displayed as nan, inf or -inf. *)
Theorem fare_value_rounds_to_cents (x : float) :
  (forall q : Q,
     F2Q x = Some q ->
     exists (sign : string) (c : Z),
       fare_value x =
         ("$" ++ sign ++ py_str_int (c / 100) ++ "."
              ++ format_02d (c mod 100))%string /\
       (sign = "-"%string /\ (q <= 0)%Q \/ sign = EmptyString /\ (0 <= q)%Q) /\
       0 <= c /\
       String.length (format_02d (c mod 100)) = 2%nat /\
       (Qabs (inject_Z c / 100 - Qabs q) <= 1 # 200)%Q) /\
  (F2Q x = None ->
   fare_value x = "$nan"%string \/ fare_value x = "$inf"%string \/
   fare_value x = "$-inf"%string).
Proof.
  unfold F2Q, fare_value, format_2f.
  destruct (Prim2SF x) as [s|s| |s m e]; split; try discriminate.
  - intros q [= <-]. exists (if s then "-"%string else EmptyString), 0.
    split; [destruct s; reflexivity|].
    split; [destruct s; [left|right]; split; (reflexivity || apply Qle_refl)|].
    split; [lia|]. split; [reflexivity|]. vm_compute. discriminate.
  - intros _. destruct s; auto.
  - intros _. auto.
  - intros q [= <-]. cbv zeta.
    set (v := (inject_Z (Z.pos m) * Qpower 2 e)%Q).
    assert (Hv : (0 < v)%Q).
    { unfold v. apply Qmult_lt_0_compat; [reflexivity|].
      apply Qpower_0_lt. reflexivity. }
    exists (if s then "-"%string else EmptyString), (cents_of m e).
    pose proof (round_half_even_near (v * 100)) as Hnear.
    fold v in Hnear. change (round_half_even (v * 100)) with (cents_of m e) in Hnear.
    split; [reflexivity|].
    assert (Hc : 0 <= cents_of m e).
    { apply round_half_even_nonneg. fold v. lra. }
    clearbody v.
    split.
    { destruct s; [left|right]; split; try reflexivity; cbv iota; lra. }
    split; [exact Hc|].
    split.
    { apply format_02d_width.
      pose proof (Z.mod_pos_bound (cents_of m e) 100). lia. }
    assert (Habs : (Qabs (if s then - v else v) == v)%Q).
    { destruct s; cbv iota; [rewrite Qabs_opp|]; apply Qabs_pos; lra. }
    rewrite Habs. apply Qabs_Qle_condition.
    unfold Qdiv. change (/ 100)%Q with (1 # 100)%Q.
    destruct Hnear as [Hlo Hhi]. split; lra.
Qed.
